(** * ReactFiberReconciler: a shallow embedding and its properties

    The module under study is
    [packages/react-reconciler/src/ReactFiberReconciler.js]: the entry
    points that stage a root's context, create and enqueue a root update,
    resolve a component handle to its host instance and register the
    inspection bridge.

    JavaScript values are embedded as a small inductive type, objects
    compared by reference.  Effects are explicit: every operation runs in
    a state-and-exception monad over a [World] that holds the module-level
    variables, the heap of root containers and the trace of calls made to
    collaborators (scheduler, update queue, console, warnings).  The
    operations are given first for collaborators that do not throw, then,
    in module [Fallible], for collaborators that may. *)

From Stdlib Require Import ZArith NArith String List Bool Lia.
From stdpp Require Import base option list gmap strings.

Local Open Scope string_scope.

(** ** JavaScript values *)

(** Functions and objects are known by their reference only. *)
Inductive JsVal : Type :=
| VUndefined
| VNull
| VBool (b : bool)
| VNumber (n : Z)
| VString (s : string)
| VFunction (ref : nat)
| VObject (ref : nat).

#[global] Instance JsVal_eq_dec : EqDecision JsVal.
Proof. solve_decision. Defined.

(** [typeof v === 'function'] *)
Definition typeof_function (v : JsVal) : bool :=
  match v with
  | VFunction _ => true
  | _ => false
  end.

(** [a === b]: primitives by value, functions and objects by reference. *)
Definition strict_equals (a b : JsVal) : bool := bool_decide (a = b).

(** An optional argument of object type ([?T] in the Flow annotations). *)
Inductive Maybe (A : Type) : Type :=
| Undefined
| Null
| Present (a : A).
Arguments Undefined {A}.
Arguments Null {A}.
Arguments Present {A} a.

(** [s || d] for a nullable string [s]: the empty string is falsy too. *)
Definition or_default (s : option string) (d : string) : string :=
  match s with
  | Some n => if String.eqb n "" then d else n
  | None => d
  end.

(** ** Work nodes, roots, update records *)

Definition WorkTag := N.
Definition TypeOfMode := N.
Definition ExpirationTime := Z.

(** The fields of a fiber this module reads.  [alternate] is the paired
    buffer node; only its presence is inspected here. *)
#[warnings="-register-all"]
Inductive Fiber : Type := mkFiber {
  tag : WorkTag;
  type : JsVal;
  stateNode : JsVal;
  mode : TypeOfMode;
  child : option Fiber;
  sibling : option Fiber;
  alternate : option Fiber
}.

Record FiberRoot : Type := mkFiberRoot {
  current : Fiber;
  context : JsVal;
  pendingContext : JsVal;
  containerInfo : JsVal
}.

Definition set_context (r : FiberRoot) (c : JsVal) : FiberRoot :=
  {| current := current r; context := c;
     pendingContext := pendingContext r; containerInfo := containerInfo r |}.

Definition set_pendingContext (r : FiberRoot) (c : JsVal) : FiberRoot :=
  {| current := current r; context := context r;
     pendingContext := c; containerInfo := containerInfo r |}.

(** A root container is a mutable object: operations receive a reference
    into the heap of roots. *)
Definition RootRef := nat.

(** The payload of an update: [null], or an object literal given by its
    own properties in insertion order. *)
Inductive Payload : Type :=
| PayloadNull
| PayloadObject (props : list (string * JsVal)).

Record Update : Type := mkUpdate {
  expirationTime : ExpirationTime;
  payload : Payload;
  callback : JsVal
}.

Definition set_payload (u : Update) (p : Payload) : Update :=
  {| expirationTime := expirationTime u; payload := p; callback := callback u |}.

Definition set_callback (u : Update) (c : JsVal) : Update :=
  {| expirationTime := expirationTime u; payload := payload u; callback := c |}.

(** A component handle, as far as this module looks into it:
    [_reactInternalFiber] ([None] is [undefined]), the [render] property
    and [Object.keys]. *)
Record Component : Type := mkComponent {
  _reactInternalFiber : option Fiber;
  render : JsVal;
  keys : list string
}.

(** ** Diagnostics, failures and the trace of collaborator calls *)

Inductive WarningKind : Type :=
| NestedUpdate (componentName : string)
| CallbackNotFunction (received : JsVal)
| FindNodeInStrictMode (insideStrictMode : bool)
    (methodName componentName stack : string).

(** The format string each warning is raised with. *)
Definition warning_format (k : WarningKind) : string :=
  match k with
  | NestedUpdate _ =>
      "Render methods should be a pure function of props and state; " ++
      "triggering nested component updates from render is not allowed. " ++
      "If necessary, trigger nested updates in componentDidUpdate.\n\n" ++
      "Check the render method of %s."
  | CallbackNotFunction _ =>
      "render(...): Expected the last optional `callback` argument to be a " ++
      "function. Instead received: %s."
  | FindNodeInStrictMode true _ _ _ =>
      "%s is deprecated in StrictMode. " ++
      "%s was passed an instance of %s which is inside StrictMode. " ++
      "Instead, add a ref directly to the element you want to reference." ++
      "\n%s" ++
      "\n\nLearn more about using refs safely here:" ++
      "\nhttps://fb.me/react-strict-mode-find-node"
  | FindNodeInStrictMode false _ _ _ =>
      "%s is deprecated in StrictMode. " ++
      "%s was passed an instance of %s which renders StrictMode children. " ++
      "Instead, add a ref directly to the element you want to reference." ++
      "\n%s" ++
      "\n\nLearn more about using refs safely here:" ++
      "\nhttps://fb.me/react-strict-mode-find-node"
  end.

Inductive InvariantKind : Type :=
| UnmountedComponent
| NotAReactComponent (objectKeys : list string).

Definition invariant_format (k : InvariantKind) : string :=
  match k with
  | UnmountedComponent => "Unable to find node on an unmounted component."
  | NotAReactComponent _ =>
      "Argument appears to not be a ReactComponent. Keys: %s"
  end.

Inductive Error : Type :=
| InvariantViolation (k : InvariantKind)
| TypeError (what : string)
| CollaboratorError (thrown : JsVal).

Inductive Result (A : Type) : Type :=
| Return (a : A)
| Throw (e : Error).
Arguments Return {A} a.
Arguments Throw {A} e.

(** ** The inspection bridge's records *)

Record DevToolsConfig : Type := mkDevToolsConfig {
  bundleType : N;
  version : string;
  rendererPackageName : string;
  findFiberByHostInstance : option (JsVal -> Result (option Fiber));
  getInspectorDataForViewTag : option (Z -> JsVal)
}.

(** The object handed to [injectInternals]: the configuration's own
    properties, spread, with the two lookups defined on top of them. *)
Record Internals : Type := mkInternals {
  internals_bundleType : N;
  internals_version : string;
  internals_rendererPackageName : string;
  internals_getInspectorDataForViewTag : option (Z -> JsVal);
  internals_findHostInstanceByFiber : Fiber -> JsVal;
  internals_findFiberByHostInstance : JsVal -> Result (option Fiber)
}.

Inductive DebugHook : Type :=
| onMountContainer
| onUnmountContainer
| onUpdateContainer.

Inductive Event : Type :=
| ConsoleLog (text : string)
| Warning (k : WarningKind)
| CreateUpdate (e : ExpirationTime)
| FlushPassiveEffects
| EnqueueUpdate (fiber : Fiber) (update : Update)
| ScheduleWork (fiber : Fiber) (e : ExpirationTime)
| DebugTool (hook : DebugHook) (container : RootRef)
| InjectInternals (internals : Internals).

(** ** The world *)

(** Module-level variables ([didWarn...]), the live bindings imported from
    ReactCurrentFiber and ReactFiberInstrumentation, the scheduler's
    clock, the heap of roots, and the trace (oldest event first). *)
Record World : Type := mkWorld {
  didWarnAboutNestedUpdates : bool;
  didWarnAboutFindNodeInStrictMode : gmap string bool;
  ReactCurrentFiberPhase : option string;
  ReactCurrentFiberCurrent : option Fiber;
  debugTool : bool;
  currentTime : ExpirationTime;
  roots : gmap RootRef FiberRoot;
  trace : list Event
}.

Definition set_didWarnAboutNestedUpdates (w : World) (b : bool) : World :=
  {| didWarnAboutNestedUpdates := b;
     didWarnAboutFindNodeInStrictMode := didWarnAboutFindNodeInStrictMode w;
     ReactCurrentFiberPhase := ReactCurrentFiberPhase w;
     ReactCurrentFiberCurrent := ReactCurrentFiberCurrent w;
     debugTool := debugTool w;
     currentTime := currentTime w;
     roots := roots w;
     trace := trace w |}.

Definition set_didWarnAboutFindNodeInStrictMode
    (w : World) (m : gmap string bool) : World :=
  {| didWarnAboutNestedUpdates := didWarnAboutNestedUpdates w;
     didWarnAboutFindNodeInStrictMode := m;
     ReactCurrentFiberPhase := ReactCurrentFiberPhase w;
     ReactCurrentFiberCurrent := ReactCurrentFiberCurrent w;
     debugTool := debugTool w;
     currentTime := currentTime w;
     roots := roots w;
     trace := trace w |}.

Definition set_roots (w : World) (r : gmap RootRef FiberRoot) : World :=
  {| didWarnAboutNestedUpdates := didWarnAboutNestedUpdates w;
     didWarnAboutFindNodeInStrictMode := didWarnAboutFindNodeInStrictMode w;
     ReactCurrentFiberPhase := ReactCurrentFiberPhase w;
     ReactCurrentFiberCurrent := ReactCurrentFiberCurrent w;
     debugTool := debugTool w;
     currentTime := currentTime w;
     roots := r;
     trace := trace w |}.

Definition set_trace (w : World) (t : list Event) : World :=
  {| didWarnAboutNestedUpdates := didWarnAboutNestedUpdates w;
     didWarnAboutFindNodeInStrictMode := didWarnAboutFindNodeInStrictMode w;
     ReactCurrentFiberPhase := ReactCurrentFiberPhase w;
     ReactCurrentFiberCurrent := ReactCurrentFiberCurrent w;
     debugTool := debugTool w;
     currentTime := currentTime w;
     roots := roots w;
     trace := t |}.

(** ** The monad of operations *)

Definition M (A : Type) : Type := World -> Result A * World.

Definition ret {A} (a : A) : M A := fun w => (Return a, w).

Definition throw {A} (e : Error) : M A := fun w => (Throw e, w).

Definition bind {A B} (m : M A) (k : A -> M B) : M B :=
  fun w =>
    match m w with
    | (Return a, w') => k a w'
    | (Throw e, w') => (Throw e, w')
    end.

Definition lift {A} (r : Result A) : M A := fun w => (r, w).

Definition get_world : M World := fun w => (Return w, w).

Definition put_world (w : World) : M unit := fun _ => (Return tt, w).

Definition emit (e : Event) : M unit :=
  fun w => (Return tt, set_trace w (trace w ++ [e])).

Declare Scope js_scope.
Delimit Scope js_scope with js.
Notation "'let*' x ':=' m 'in' k" := (bind m (fun x => k))
  (at level 10, x name, m at level 100, k at level 200) : js_scope.
Notation "m ';;' k" := (bind m (fun _ => k))
  (at level 100, k at level 200, right associativity) : js_scope.
Local Open Scope js_scope.

(** Run an operation: its outcome and the world it leaves. *)
Definition outcome {A} (m : M A) (w : World) : Result A := fst (m w).
Definition after {A} (m : M A) (w : World) : World := snd (m w).

(** ** Collaborators *)

(** What the module imports and does not define: build flag, constants,
    host configuration, legacy context, tree reflection, scheduler clock
    policy and the devtools hook.  The functions that only produce a value
    are taken as such; calls made for their effect are recorded in the
    trace instead (below). *)
Class Collaborators : Type := {
  DEV : bool;
  HostComponent : WorkTag;
  ClassComponent : WorkTag;
  StrictMode : TypeOfMode;
  emptyContextObject : JsVal;
  getPublicInstance : JsVal -> JsVal;
  getComponentName : JsVal -> option string;
  getStackByFiberInDevAndProd : Fiber -> string;
  findCurrentUnmaskedContext : option Fiber -> Result JsVal;
  isLegacyContextProvider : JsVal -> bool;
  processChildContext : Fiber -> JsVal -> JsVal -> Result JsVal;
  findCurrentHostFiber : Fiber -> option Fiber;
  findCurrentHostFiberWithNoPortals : Fiber -> option Fiber;
  computeExpirationForFiber : ExpirationTime -> Fiber -> ExpirationTime;
  injectInternals : Internals -> bool
}.

(** Property names found on [Object.prototype]: a lookup on an object
    literal such as [didWarnAboutFindNodeInStrictMode = {}] finds them
    (all truthy) although the object has no such own property. *)
Definition object_prototype_keys : list string :=
  ["constructor"; "hasOwnProperty"; "isPrototypeOf"; "propertyIsEnumerable";
   "toLocaleString"; "toString"; "valueOf"; "__proto__";
   "__defineGetter__"; "__defineSetter__";
   "__lookupGetter__"; "__lookupSetter__"].

(** [obj[key]] read for its truth value, [obj] an object literal whose own
    properties are [m]. *)
Definition lookup_truthy (m : gmap string bool) (key : string) : bool :=
  match m !! key with
  | Some b => b
  | None => bool_decide (key ∈ object_prototype_keys)
  end.

(** [obj[key] = true]; an assignment to [__proto__] of a primitive is
    ignored by the setter inherited from [Object.prototype]. *)
Definition assign_true (m : gmap string bool) (key : string)
  : gmap string bool :=
  if String.eqb key "__proto__" then m else <[key := true]> m.

Section Reconciler.

Context `{Collaborators}.

(** *** Imported operations *)

(** Modelled from the spec: [invariant(false, ...)] of shared/invariant
    signals an InvariantViolation and halts the operation. *)
Definition invariant {A} (k : InvariantKind) : M A :=
  throw (InvariantViolation k).

(** Modelled from the spec: [warningWithoutStack(condition, ...)] of
    shared/warningWithoutStack surfaces a non-fatal warning when the
    condition is false, in development builds only. *)
Definition warningWithoutStack (condition : bool) (k : WarningKind) : M unit :=
  if DEV && negb condition then emit (Warning k) else ret tt.

(** Modelled from the spec: [get] of shared/ReactInstanceMap resolves a
    handle to its backing work node, [undefined] when the handle carries
    no internal association. *)
Definition getInstance (component : Component) : option Fiber :=
  _reactInternalFiber component.

(** Modelled from the spec: [createUpdate] of ReactUpdateQueue allocates a
    record at the given priority with no payload and no callback. *)
Definition createUpdate (e : ExpirationTime) : M Update :=
  emit (CreateUpdate e);;
  ret {| expirationTime := e; payload := PayloadNull; callback := VNull |}.

Definition enqueueUpdate (fiber : Fiber) (update : Update) : M unit :=
  emit (EnqueueUpdate fiber update).

Definition scheduleWork (fiber : Fiber) (e : ExpirationTime) : M unit :=
  emit (ScheduleWork fiber e).

Definition flushPassiveEffects : M unit := emit FlushPassiveEffects.

Definition requestCurrentTime : M ExpirationTime :=
  fun w => (Return (currentTime w), w).

(** [console.log]: the trace keeps the name the line starts with, not the
    rest of the text or the logged objects. *)
Definition console_log (text : string) : M unit := emit (ConsoleLog text).

(** *** getContextForSubtree *)

Definition getContextForSubtree (parentComponent : Maybe Component) : M JsVal :=
  console_log "getContextForSubtree";;
  match parentComponent with
  | Undefined | Null => ret emptyContextObject
  | Present component =>
      let fiber := getInstance component in
      let* parentContext := lift (findCurrentUnmaskedContext fiber) in
      match fiber with
      | None => throw (TypeError "Cannot read property 'tag' of undefined")
      | Some fiber =>
          if (tag fiber =? ClassComponent)%N then
            let Component := type fiber in
            if isLegacyContextProvider Component then
              lift (processChildContext fiber Component parentContext)
            else ret parentContext
          else ret parentContext
      end
  end.

(** *** scheduleRootUpdate *)

Definition warnAboutNestedUpdates : M unit :=
  let* w := get_world in
  match ReactCurrentFiberPhase w, ReactCurrentFiberCurrent w with
  | Some phase, Some cur =>
      if String.eqb phase "render" && negb (didWarnAboutNestedUpdates w) then
        put_world (set_didWarnAboutNestedUpdates w true);;
        warningWithoutStack false
          (NestedUpdate (or_default (getComponentName (type cur)) "Unknown"))
      else ret tt
  | _, _ => ret tt
  end.

Definition scheduleRootUpdate (current : Fiber) (element : JsVal)
    (expirationTime : ExpirationTime) (callback : JsVal) : M ExpirationTime :=
  console_log "scheduleRootUpdate";;
  (if DEV then warnAboutNestedUpdates else ret tt);;
  let* update := createUpdate expirationTime in
  let update := set_payload update (PayloadObject [("element", element)]) in
  let callback :=
    if strict_equals callback VUndefined then VNull else callback in
  let* update :=
    if negb (strict_equals callback VNull) then
      warningWithoutStack (typeof_function callback)
        (CallbackNotFunction callback);;
      ret (set_callback update callback)
    else ret update in
  flushPassiveEffects;;
  enqueueUpdate current update;;
  scheduleWork current expirationTime;;
  ret expirationTime.

(** *** updateContainerAtExpirationTime, updateContainer *)

(** [container.f] on a reference that holds no root is a TypeError. *)
Definition read_root (container : RootRef) : M FiberRoot :=
  fun w =>
    match roots w !! container with
    | Some r => (Return r, w)
    | None => (Throw (TypeError "container is not a root"), w)
    end.

Definition write_root (container : RootRef) (r : FiberRoot) : M unit :=
  fun w => (Return tt, set_roots w (<[container := r]> (roots w))).

Definition notifyDebugTool (container : RootRef) (current : Fiber)
    (element : JsVal) : M unit :=
  let* w := get_world in
  if debugTool w then
    match alternate current with
    | None => emit (DebugTool onMountContainer container)
    | Some _ =>
        if strict_equals element VNull
        then emit (DebugTool onUnmountContainer container)
        else emit (DebugTool onUpdateContainer container)
    end
  else ret tt.

Definition updateContainerAtExpirationTime (element : JsVal)
    (container : RootRef) (parentComponent : Maybe Component)
    (expirationTime : ExpirationTime) (callback : JsVal) : M ExpirationTime :=
  let* root := read_root container in
  let current := current root in
  (if DEV then notifyDebugTool container current element else ret tt);;
  let* ctx := getContextForSubtree parentComponent in
  let* root := read_root container in
  (if strict_equals (context root) VNull
   then write_root container (set_context root ctx)
   else write_root container (set_pendingContext root ctx));;
  scheduleRootUpdate current element expirationTime callback.

Definition updateContainer (element : JsVal) (container : RootRef)
    (parentComponent : Maybe Component) (callback : JsVal) : M ExpirationTime :=
  let* root := read_root container in
  let current := current root in
  let* currentTime := requestCurrentTime in
  let expirationTime := computeExpirationForFiber currentTime current in
  updateContainerAtExpirationTime element container parentComponent
    expirationTime callback.

(** *** findHostInstance, findHostInstanceWithWarning *)

Definition findHostInstance (component : Component) : M JsVal :=
  let fiber := getInstance component in
  let* fiber :=
    match fiber with
    | None =>
        if typeof_function (render component)
        then invariant UnmountedComponent
        else invariant (NotAReactComponent (keys component))
    | Some fiber => ret fiber
    end in
  let hostFiber := findCurrentHostFiber fiber in
  match hostFiber with
  | None => ret VNull
  | Some hostFiber => ret (stateNode hostFiber)
  end.

(** [mode & StrictMode] read as a condition. *)
Definition inStrictMode (fiber : Fiber) : bool :=
  negb (N.land (mode fiber) StrictMode =? 0)%N.

Definition warnAboutFindNodeInStrictMode (fiber hostFiber : Fiber)
    (methodName : string) : M unit :=
  if inStrictMode hostFiber then
    let componentName := or_default (getComponentName (type fiber)) "Component" in
    let* w := get_world in
    if negb (lookup_truthy (didWarnAboutFindNodeInStrictMode w) componentName)
    then
      put_world (set_didWarnAboutFindNodeInStrictMode w
        (assign_true (didWarnAboutFindNodeInStrictMode w) componentName));;
      if inStrictMode fiber then
        warningWithoutStack false
          (FindNodeInStrictMode true methodName componentName
             (getStackByFiberInDevAndProd hostFiber))
      else
        warningWithoutStack false
          (FindNodeInStrictMode false methodName componentName
             (getStackByFiberInDevAndProd hostFiber))
    else ret tt
  else ret tt.

Definition findHostInstanceWithWarning (component : Component)
    (methodName : string) : M JsVal :=
  if DEV then
    let fiber := getInstance component in
    let* fiber :=
      match fiber with
      | None =>
          if typeof_function (render component)
          then invariant UnmountedComponent
          else invariant (NotAReactComponent (keys component))
      | Some fiber => ret fiber
      end in
    let hostFiber := findCurrentHostFiber fiber in
    match hostFiber with
    | None => ret VNull
    | Some hostFiber =>
        warnAboutFindNodeInStrictMode fiber hostFiber methodName;;
        ret (stateNode hostFiber)
    end
  else findHostInstance component.

(** *** getPublicRootInstance, findHostInstanceWithNoPortals *)

Definition getPublicRootInstance (container : RootRef) : M JsVal :=
  let* root := read_root container in
  let containerFiber := current root in
  match child containerFiber with
  | None => ret VNull
  | Some c =>
      if (tag c =? HostComponent)%N
      then ret (getPublicInstance (stateNode c))
      else ret (stateNode c)
  end.

Definition findHostInstanceWithNoPortals (fiber : Fiber) : M JsVal :=
  let hostFiber := findCurrentHostFiberWithNoPortals fiber in
  match hostFiber with
  | None => ret VNull
  | Some hostFiber => ret (stateNode hostFiber)
  end.

(** *** injectIntoDevTools *)

Definition findHostInstanceByFiber (fiber : Fiber) : JsVal :=
  let hostFiber := findCurrentHostFiber fiber in
  match hostFiber with
  | None => VNull
  | Some hostFiber => stateNode hostFiber
  end.

Definition findFiberByHostInstance_wrapper
    (supplied : option (JsVal -> Result (option Fiber)))
    (instance : JsVal) : Result (option Fiber) :=
  match supplied with
  | None => Return None
  | Some f => f instance
  end.

Definition devToolsInternals (devToolsConfig : DevToolsConfig) : Internals :=
  let supplied := findFiberByHostInstance devToolsConfig in
  {| internals_bundleType := bundleType devToolsConfig;
     internals_version := version devToolsConfig;
     internals_rendererPackageName := rendererPackageName devToolsConfig;
     internals_getInspectorDataForViewTag :=
       getInspectorDataForViewTag devToolsConfig;
     internals_findHostInstanceByFiber := findHostInstanceByFiber;
     internals_findFiberByHostInstance :=
       findFiberByHostInstance_wrapper supplied |}.

Definition injectIntoDevTools (devToolsConfig : DevToolsConfig) : M bool :=
  let internals := devToolsInternals devToolsConfig in
  emit (InjectInternals internals);;
  ret (injectInternals internals).

End Reconciler.

(** ** A sample environment *)

(** Modelled from the spec: the tree reflection of
    react-reconciler/reflection, which is not part of this module.  It
    walks the resolved node and its descendants in tree order up to the
    first node whose tag is the host kind; the variant that suppresses
    portal boundaries does not descend below a portal node.  [hostKind] and
    [portalKind] are the tags in question. *)
Fixpoint walkHostFibers (hostKind portalKind : WorkTag) (noPortals : bool)
    (node : Fiber) {struct node} : option Fiber :=
  match node with
  | mkFiber t _ _ _ ch sib _ =>
      if (t =? hostKind)%N then Some node
      else
        let below :=
          if noPortals && (t =? portalKind)%N then None
          else match ch with
               | Some c => walkHostFibers hostKind portalKind noPortals c
               | None => None
               end in
        match below with
        | Some h => Some h
        | None =>
            match sib with
            | Some s => walkHostFibers hostKind portalKind noPortals s
            | None => None
            end
        end
  end.

Definition firstHostFiber (hostKind portalKind : WorkTag) (noPortals : bool)
    (parent : Fiber) : option Fiber :=
  if (tag parent =? hostKind)%N then Some parent
  else if noPortals && (tag parent =? portalKind)%N then None
  else match child parent with
       | Some c => walkHostFibers hostKind portalKind noPortals c
       | None => None
       end.

(** Collaborators to run the operations with: host instances are their
    own public instances, a component type is named by its string, no
    legacy context provider, deadlines equal to the clock. *)
Definition sample (dev : bool) : Collaborators :=
  {| DEV := dev;
     HostComponent := 5%N;
     ClassComponent := 1%N;
     StrictMode := 2%N;
     emptyContextObject := VObject 0;
     getPublicInstance := fun inst => inst;
     getComponentName :=
       fun ty => match ty with VString s => Some s | _ => None end;
     getStackByFiberInDevAndProd := fun _ => "";
     findCurrentUnmaskedContext :=
       fun fiber =>
         match fiber with
         | Some _ => Return (VObject 1)
         | None => Throw (TypeError "not a mounted component")
         end;
     isLegacyContextProvider := fun _ => false;
     processChildContext := fun _ _ parentContext => Return parentContext;
     findCurrentHostFiber := firstHostFiber 5%N 4%N false;
     findCurrentHostFiberWithNoPortals := firstHostFiber 5%N 4%N true;
     computeExpirationForFiber := fun now _ => now;
     injectInternals := fun _ => true |}.

Definition leaf (t : WorkTag) (ty inst : JsVal) (m : TypeOfMode) : Fiber :=
  mkFiber t ty inst m None None None.

(** A [div] host node, a class component [App] rendering it, and the
    host root above both. *)
Definition divFiber : Fiber := leaf 5%N (VString "div") (VObject 10) 0%N.
Definition appFiber : Fiber :=
  mkFiber 1%N (VString "App") (VObject 11) 0%N (Some divFiber) None None.
Definition hostRootFiber : Fiber :=
  mkFiber 3%N VNull (VObject 12) 0%N (Some appFiber) None None.

Definition freshRoot : FiberRoot :=
  {| current := hostRootFiber; context := VNull;
     pendingContext := VNull; containerInfo := VObject 13 |}.

Definition committedRoot : FiberRoot :=
  {| current := hostRootFiber; context := VObject 0;
     pendingContext := VNull; containerInfo := VObject 13 |}.

(** Handles: a mounted component, one that lost its work node, an object
    that never was a component, and a component under strict mode. *)
Definition mountedApp : Component :=
  {| _reactInternalFiber := Some appFiber; render := VFunction 1;
     keys := ["props"; "state"] |}.

Definition unmountedApp : Component :=
  {| _reactInternalFiber := None; render := VFunction 1;
     keys := ["props"; "state"] |}.

Definition foreignObject : Component :=
  {| _reactInternalFiber := None; render := VUndefined;
     keys := ["a"; "b"] |}.

Definition strictDiv : Fiber := leaf 5%N (VString "div") (VObject 20) 2%N.
Definition strictApp : Component :=
  {| _reactInternalFiber :=
       Some (mkFiber 1%N (VString "App") (VObject 21) 2%N
               (Some strictDiv) None None);
     render := VFunction 1; keys := [] |}.

Definition bareConfig : DevToolsConfig :=
  {| bundleType := 1%N; version := "16.8.0";
     rendererPackageName := "react-dom";
     findFiberByHostInstance := None;
     getInspectorDataForViewTag := None |}.

(** The world at module load, given what the environment holds. *)
Definition initialWorld (phase : option string) (cur : option Fiber)
    (tool : bool) (now : ExpirationTime) (heap : gmap RootRef FiberRoot)
  : World :=
  {| didWarnAboutNestedUpdates := false;
     didWarnAboutFindNodeInStrictMode := ∅;
     ReactCurrentFiberPhase := phase;
     ReactCurrentFiberCurrent := cur;
     debugTool := tool;
     currentTime := now;
     roots := heap;
     trace := [] |}.

Definition world0 : World :=
  initialWorld None None false 100%Z (<[1 := committedRoot]> {[0 := freshRoot]}).

(** ** Observing a run *)

(** The events an operation appends to the trace when started in [w]. *)
Definition events_of {A} (m : M A) (w : World) : list Event :=
  drop (length (trace w)) (trace (after m w)).



Definition is_EnqueueUpdate (ev : Event) : bool :=
  match ev with EnqueueUpdate _ _ => true | _ => false end.

Fixpoint count_events (p : Event -> bool) (t : list Event) : nat :=
  match t with
  | [] => 0
  | ev :: t' => (if p ev then 1 else 0) + count_events p t'
  end.


(** The update records handed to the queue, in order. *)
Fixpoint enqueued (t : list Event) : list Update :=
  match t with
  | [] => []
  | EnqueueUpdate _ u :: t' => u :: enqueued t'
  | _ :: t' => enqueued t'
  end.

(** The objects registered with the inspection tool, in order. *)
Fixpoint registered (t : list Event) : list Internals :=
  match t with
  | [] => []
  | InjectInternals i :: t' => i :: registered t'
  | _ :: t' => registered t'
  end.

Definition is_strictModeWarning (ev : Event) : bool :=
  match ev with
  | Warning (FindNodeInStrictMode _ _ _ _) => true
  | _ => false
  end.

(** The strict-mode deprecation warning, raised for component [name]. *)
Definition warns_strictMode_for (name : string) (ev : Event) : bool :=
  match ev with
  | Warning (FindNodeInStrictMode _ _ n _) => String.eqb n name
  | _ => false
  end.


(** A handle that was not passed: [null] or [undefined]. *)
Definition absent {A} (x : Maybe A) : bool :=
  match x with
  | Undefined | Null => true
  | Present _ => false
  end.

(** Where the heap [heap'] holds the context [ctx] staged on [container],
    whose root was [root] before: in [context] when that was null, in
    [pendingContext] otherwise, the other of the two fields as it was. *)
Definition contextStaged (root : FiberRoot) (ctx : JsVal)
    (container : RootRef) (heap' : gmap RootRef FiberRoot) : Prop :=
  exists root',
    heap' !! container = Some root' /\
    (context root = VNull ->
     context root' = ctx /\ pendingContext root' = pendingContext root) /\
    (context root <> VNull ->
     pendingContext root' = ctx /\ context root' = context root).

(** What the module-level record of strict-mode warnings allows for
    [name]: one warning once the name is recorded, none before. *)
Definition recorded (m : gmap string bool) (name : string) : nat :=
  match m !! name with
  | Some true => 1
  | _ => 0
  end.

(** Every strict-mode warning in the trace is accounted for in
    [didWarnAboutFindNodeInStrictMode], which has no own property
    [__proto__] (assignment cannot create one). *)
Definition warningsRecorded (w : World) : Prop :=
  didWarnAboutFindNodeInStrictMode w !! "__proto__" = None /\
  forall name,
    count_events (warns_strictMode_for name) (trace w) <=
    recorded (didWarnAboutFindNodeInStrictMode w) name.

(** An operation that leaves the record of strict-mode warnings alone and
    raises no such warning, whether it returns or throws. *)
Definition quiet {A} (m : M A) : Prop :=
  forall w,
    didWarnAboutFindNodeInStrictMode (after m w) =
      didWarnAboutFindNodeInStrictMode w /\
    exists evs,
      trace (after m w) = (trace w ++ evs)%list /\
      count_events is_strictModeWarning evs = 0.

Definition set_environment (w : World) (phase : option string)
    (cur : option Fiber) (tool : bool) (now : ExpirationTime)
    (heap : gmap RootRef FiberRoot) : World :=
  {| didWarnAboutNestedUpdates := didWarnAboutNestedUpdates w;
     didWarnAboutFindNodeInStrictMode := didWarnAboutFindNodeInStrictMode w;
     ReactCurrentFiberPhase := phase;
     ReactCurrentFiberCurrent := cur;
     debugTool := tool;
     currentTime := now;
     roots := heap;
     trace := trace w |}.

(** One step of a session with the module: a call of an exported
    operation, or the environment moving on (the scheduler commits, the
    clock advances, rendering starts or ends) between two calls. *)
Inductive Step : Type :=
| call_updateContainer (element : JsVal) (container : RootRef)
    (parentComponent : Maybe Component) (callback : JsVal)
| call_updateContainerAtExpirationTime (element : JsVal)
    (container : RootRef) (parentComponent : Maybe Component)
    (expirationTime : ExpirationTime) (callback : JsVal)
| call_findHostInstance (component : Component)
| call_findHostInstanceWithWarning (component : Component)
    (methodName : string)
| call_getPublicRootInstance (container : RootRef)
| call_findHostInstanceWithNoPortals (fiber : Fiber)
| call_injectIntoDevTools (devToolsConfig : DevToolsConfig)
| environment (phase : option string) (cur : option Fiber) (tool : bool)
    (now : ExpirationTime) (heap : gmap RootRef FiberRoot).

Section Sessions.

Context `{Collaborators}.

(** A failing call leaves the world as it was when it threw; the caller
    goes on. *)
Definition run_step (s : Step) (w : World) : World :=
  match s with
  | call_updateContainer el c p cb => after (updateContainer el c p cb) w
  | call_updateContainerAtExpirationTime el c p e cb =>
      after (updateContainerAtExpirationTime el c p e cb) w
  | call_findHostInstance c => after (findHostInstance c) w
  | call_findHostInstanceWithWarning c m =>
      after (findHostInstanceWithWarning c m) w
  | call_getPublicRootInstance c => after (getPublicRootInstance c) w
  | call_findHostInstanceWithNoPortals f =>
      after (findHostInstanceWithNoPortals f) w
  | call_injectIntoDevTools cfg => after (injectIntoDevTools cfg) w
  | environment phase cur tool now heap =>
      set_environment w phase cur tool now heap
  end.

Fixpoint run_steps (ss : list Step) (w : World) : World :=
  match ss with
  | [] => w
  | s :: ss' => run_steps ss' (run_step s w)
  end.

(** What [scheduleRootUpdate] leaves behind, written out. *)
Definition nestedUpdateFires (w : World) : bool :=
  DEV &&
  match ReactCurrentFiberPhase w, ReactCurrentFiberCurrent w with
  | Some phase, Some _ =>
      String.eqb phase "render" && negb (didWarnAboutNestedUpdates w)
  | _, _ => false
  end.

Definition nestedUpdateEvents (w : World) : list Event :=
  match ReactCurrentFiberCurrent w with
  | Some cur =>
      if nestedUpdateFires w
      then [Warning (NestedUpdate
                       (or_default (getComponentName (type cur)) "Unknown"))]
      else []
  | None => []
  end.

Definition normalizedCallback (callback : JsVal) : JsVal :=
  if strict_equals callback VUndefined then VNull else callback.

Definition callbackEvents (callback : JsVal) : list Event :=
  if DEV && negb (strict_equals (normalizedCallback callback) VNull)
         && negb (typeof_function callback)
  then [Warning (CallbackNotFunction callback)]
  else [].

Definition rootUpdate (element : JsVal) (e : ExpirationTime)
    (callback : JsVal) : Update :=
  {| expirationTime := e;
     payload := PayloadObject [("element", element)];
     callback := normalizedCallback callback |}.

Definition scheduleRootUpdateEvents (w : World) (cur : Fiber)
    (element : JsVal) (e : ExpirationTime) (callback : JsVal) : list Event :=
  ConsoleLog "scheduleRootUpdate" :: nestedUpdateEvents w ++
  CreateUpdate e :: callbackEvents callback ++
  [FlushPassiveEffects;
   EnqueueUpdate cur (rootUpdate element e callback);
   ScheduleWork cur e].

(** What the instrumentation hook is told, in a development build. *)
Definition debugToolEvents (w : World) (container : RootRef) (cur : Fiber)
    (element : JsVal) : list Event :=
  if DEV && debugTool w then
    match alternate cur with
    | None => [DebugTool onMountContainer container]
    | Some _ =>
        if strict_equals element VNull
        then [DebugTool onUnmountContainer container]
        else [DebugTool onUpdateContainer container]
    end
  else [].

(** The root as [updateContainerAtExpirationTime] leaves it. *)
Definition stageContext (root : FiberRoot) (ctx : JsVal) : FiberRoot :=
  if strict_equals (context root) VNull
  then set_context root ctx
  else set_pendingContext root ctx.

(** The context [getContextForSubtree] resolves, apart from its log line. *)
Definition subtreeContext (parentComponent : Maybe Component) : Result JsVal :=
  match parentComponent with
  | Undefined | Null => Return emptyContextObject
  | Present component =>
      match findCurrentUnmaskedContext (getInstance component) with
      | Throw e => Throw e
      | Return parentContext =>
          match getInstance component with
          | None => Throw (TypeError "Cannot read property 'tag' of undefined")
          | Some fiber =>
              if (tag fiber =? ClassComponent)%N
                 && isLegacyContextProvider (type fiber)
              then processChildContext fiber (type fiber) parentContext
              else Return parentContext
          end
      end
  end.

End Sessions.

(** ** Further observations of a run *)

Definition is_ScheduleWork (ev : Event) : bool :=
  match ev with ScheduleWork _ _ => true | _ => false end.

Definition is_DebugTool (ev : Event) : bool :=
  match ev with DebugTool _ _ => true | _ => false end.

Definition is_nestedUpdateWarning (ev : Event) : bool :=
  match ev with Warning (NestedUpdate _) => true | _ => false end.

Definition is_callbackWarning (ev : Event) : bool :=
  match ev with Warning (CallbackNotFunction _) => true | _ => false end.

(** The four calls that make up an update: create, flush, enqueue,
    schedule. *)
Definition is_updateEvent (ev : Event) : bool :=
  match ev with
  | CreateUpdate _ | FlushPassiveEffects
  | EnqueueUpdate _ _ | ScheduleWork _ _ => true
  | _ => false
  end.

(** Events raised outside the development-only blocks and warnings. *)
Definition is_plainEvent (ev : Event) : bool :=
  match ev with
  | ConsoleLog _ | CreateUpdate _ | FlushPassiveEffects
  | EnqueueUpdate _ _ | ScheduleWork _ _ | InjectInternals _ => true
  | Warning _ | DebugTool _ _ => false
  end.

(** The fibers updates were enqueued on, with the updates, in order. *)
Fixpoint enqueuedOn (t : list Event) : list (Fiber * Update) :=
  match t with
  | [] => []
  | EnqueueUpdate f u :: t' => (f, u) :: enqueuedOn t'
  | _ :: t' => enqueuedOn t'
  end.

(** The scheduling requests, in order. *)
Fixpoint scheduled (t : list Event) : list (Fiber * ExpirationTime) :=
  match t with
  | [] => []
  | ScheduleWork f e :: t' => (f, e) :: scheduled t'
  | _ :: t' => scheduled t'
  end.

(** The instrumentation hooks called, in order. *)
Fixpoint debugHooks (t : list Event) : list DebugHook :=
  match t with
  | [] => []
  | DebugTool h _ :: t' => h :: debugHooks t'
  | _ :: t' => debugHooks t'
  end.

(** The nested-update warning is in the trace only if
    [didWarnAboutNestedUpdates] says so, and then once. *)
Definition nestedRecorded (w : World) : Prop :=
  count_events is_nestedUpdateWarning (trace w) <=
  (if didWarnAboutNestedUpdates w then 1 else 0).

(** [w] has the bookkeeping of [w0] and no instrumentation call beyond
    those of [w0]. *)
Definition bookkeepingOf (w0 w : World) : Prop :=
  didWarnAboutNestedUpdates w = didWarnAboutNestedUpdates w0 /\
  didWarnAboutFindNodeInStrictMode w = didWarnAboutFindNodeInStrictMode w0 /\
  count_events is_DebugTool (trace w) = count_events is_DebugTool (trace w0).

(** No name found on [Object.prototype] is an own property of the record
    of strict-mode warnings, nor was warned about. *)
Definition inheritedNamesSilent (w : World) : Prop :=
  forall name, name ∈ object_prototype_keys ->
    didWarnAboutFindNodeInStrictMode w !! name = None /\
    count_events (warns_strictMode_for name) (trace w) = 0.

(** A world in which a class component is rendering, with the
    instrumentation hook installed. *)
Definition renderingWorld : World :=
  initialWorld (Some "render") (Some appFiber) true 100%Z
    (<[1 := committedRoot]> {[0 := freshRoot]}).

Definition toStringApp : Component :=
  {| _reactInternalFiber :=
       Some (mkFiber 1%N (VString "toString") (VObject 22) 2%N
               (Some strictDiv) None None);
     render := VFunction 1; keys := [] |}.

(** ** Collaborators that fail *)

(** The operations above take from their collaborators the value each
    produces and record the calls made for effect; they are the runs in
    which no collaborator throws.  The module calls its collaborators
    unguarded, so what one of them throws leaves the operation as it is.
    [Faults] says which calls throw, and what: the warning helper (while
    it formats its arguments), the scheduler and the update queue, and the
    two tree searches of the reflection. *)
Class Faults : Type := {
  warningWithoutStack_throws : WarningKind -> option Error;
  flushPassiveEffects_throws : option Error;
  enqueueUpdate_throws : Fiber -> Update -> option Error;
  scheduleWork_throws : Fiber -> ExpirationTime -> option Error;
  findCurrentHostFiber_throws : Fiber -> option Error;
  findCurrentHostFiberWithNoPortals_throws : Fiber -> option Error
}.

(** A call that throws is not completed: it leaves no event. *)
Definition failing {A} (fault : option Error) (m : M A) : M A :=
  match fault with
  | Some err => throw err
  | None => m
  end.

Module Fallible.

Section Operations.

Context `{Collaborators} `{Faults}.

(** The warning helper formats its arguments only when it has a warning
    to raise: a true condition, or a production build, returns before. *)
Definition warningWithoutStack (condition : bool) (k : WarningKind) : M unit :=
  if DEV && negb condition
  then failing (warningWithoutStack_throws k) (emit (Warning k))
  else ret tt.

Definition flushPassiveEffects : M unit :=
  failing flushPassiveEffects_throws (emit FlushPassiveEffects).

Definition enqueueUpdate (fiber : Fiber) (update : Update) : M unit :=
  failing (enqueueUpdate_throws fiber update)
    (emit (EnqueueUpdate fiber update)).

Definition scheduleWork (fiber : Fiber) (e : ExpirationTime) : M unit :=
  failing (scheduleWork_throws fiber e) (emit (ScheduleWork fiber e)).

Definition findCurrentHostFiber (fiber : Fiber) : M (option Fiber) :=
  failing (findCurrentHostFiber_throws fiber)
    (ret (findCurrentHostFiber fiber)).

Definition findCurrentHostFiberWithNoPortals (fiber : Fiber)
  : M (option Fiber) :=
  failing (findCurrentHostFiberWithNoPortals_throws fiber)
    (ret (findCurrentHostFiberWithNoPortals fiber)).

Definition warnAboutNestedUpdates : M unit :=
  let* w := get_world in
  match ReactCurrentFiberPhase w, ReactCurrentFiberCurrent w with
  | Some phase, Some cur =>
      if String.eqb phase "render" && negb (didWarnAboutNestedUpdates w) then
        put_world (set_didWarnAboutNestedUpdates w true);;
        warningWithoutStack false
          (NestedUpdate (or_default (getComponentName (type cur)) "Unknown"))
      else ret tt
  | _, _ => ret tt
  end.

Definition scheduleRootUpdate (current : Fiber) (element : JsVal)
    (expirationTime : ExpirationTime) (callback : JsVal) : M ExpirationTime :=
  console_log "scheduleRootUpdate";;
  (if DEV then warnAboutNestedUpdates else ret tt);;
  let* update := createUpdate expirationTime in
  let update := set_payload update (PayloadObject [("element", element)]) in
  let callback :=
    if strict_equals callback VUndefined then VNull else callback in
  let* update :=
    if negb (strict_equals callback VNull) then
      warningWithoutStack (typeof_function callback)
        (CallbackNotFunction callback);;
      ret (set_callback update callback)
    else ret update in
  flushPassiveEffects;;
  enqueueUpdate current update;;
  scheduleWork current expirationTime;;
  ret expirationTime.

Definition findHostInstance (component : Component) : M JsVal :=
  let fiber := getInstance component in
  let* fiber :=
    match fiber with
    | None =>
        if typeof_function (render component)
        then invariant UnmountedComponent
        else invariant (NotAReactComponent (keys component))
    | Some fiber => ret fiber
    end in
  let* hostFiber := findCurrentHostFiber fiber in
  match hostFiber with
  | None => ret VNull
  | Some hostFiber => ret (stateNode hostFiber)
  end.

Definition findHostInstanceWithNoPortals (fiber : Fiber) : M JsVal :=
  let* hostFiber := findCurrentHostFiberWithNoPortals fiber in
  match hostFiber with
  | None => ret VNull
  | Some hostFiber => ret (stateNode hostFiber)
  end.

End Operations.

End Fallible.

(** No collaborator throws. *)
Definition noFaults : Faults :=
  {| warningWithoutStack_throws := fun _ => None;
     flushPassiveEffects_throws := None;
     enqueueUpdate_throws := fun _ _ => None;
     scheduleWork_throws := fun _ _ => None;
     findCurrentHostFiber_throws := fun _ => None;
     findCurrentHostFiberWithNoPortals_throws := fun _ => None |}.

(** A reflection that raises its own invariant for a fiber it finds
    unmounted (told here by an undefined [stateNode]), and a warning
    helper that cannot turn the object 66, which has no [toString], into
    a string.  Scheduler and queue do not throw. *)
Definition sampleFaults : Faults :=
  {| warningWithoutStack_throws :=
       fun k =>
         match k with
         | CallbackNotFunction (VObject 66) =>
             Some (TypeError "Cannot convert object to primitive value")
         | _ => None
         end;
     flushPassiveEffects_throws := None;
     enqueueUpdate_throws := fun _ _ => None;
     scheduleWork_throws := fun _ _ => None;
     findCurrentHostFiber_throws :=
       fun fiber =>
         if strict_equals (stateNode fiber) VUndefined
         then Some (InvariantViolation UnmountedComponent) else None;
     findCurrentHostFiberWithNoPortals_throws :=
       fun fiber =>
         if strict_equals (stateNode fiber) VUndefined
         then Some (InvariantViolation UnmountedComponent) else None |}.

(** A class component's fiber that is no longer in a tree, and a handle
    still associated with it. *)
Definition detachedFiber : Fiber :=
  leaf 1%N (VString "App") VUndefined 0%N.

Definition detachedApp : Component :=
  {| _reactInternalFiber := Some detachedFiber; render := VFunction 1;
     keys := ["props"; "state"] |}.

(** An operation that, returning or throwing, leaves in the trace neither
    an enqueued update nor a request for work, and whose result, when it
    returns, satisfies [Q]. *)
Definition prefixRun {A} (m : M A) (Q : A -> Prop) : Prop :=
  forall w,
    exists pre,
      trace (after m w) = (trace w ++ pre)%list /\
      enqueuedOn pre = [] /\ scheduled pre = [] /\
      match outcome m w with
      | Return a => Q a
      | Throw _ => True
      end.

(** The last three calls of an update, as far as they got: flush,
    enqueue [u] on [cur], request work for [cur] at [e]. *)
Definition queueEvents (cur : Fiber) (u : Update) (e : ExpirationTime)
    (reached : nat) : list Event :=
  take reached
    [FlushPassiveEffects; EnqueueUpdate cur u; ScheduleWork cur e].

(** An operation that ends with those three calls: it returns [e] when
    all three went through, and throws when it stopped before or at one of
    them. *)
Definition queueRun (m : M ExpirationTime) (cur : Fiber) (u : Update)
    (e : ExpirationTime) : Prop :=
  forall w,
    exists pre reached,
      trace (after m w) = (trace w ++ pre ++ queueEvents cur u e reached)%list /\
      enqueuedOn pre = [] /\ scheduled pre = [] /\
      reached <= 3 /\
      (outcome m w = Return e /\ reached = 3 \/
       (exists err, outcome m w = Throw err) /\ reached < 3).

(** * Properties *)

Local Open Scope list_scope.

Section Properties.

Context `{Collaborators}.

Ltac run :=
  unfold bind, ret, throw, lift, emit, get_world, put_world,
    console_log, invariant; simpl.

Lemma getContextForSubtree_run (p : Maybe Component) (w : World) :
  getContextForSubtree p w =
  (subtreeContext p,
   set_trace w (trace w ++ [ConsoleLog "getContextForSubtree"])).
Proof.
  unfold getContextForSubtree, subtreeContext. run.
  destruct p as [| |c]; try reflexivity.
  destruct (findCurrentUnmaskedContext (getInstance c)) as [pc|e];
    [|reflexivity].
  destruct (getInstance c) as [f|]; [|reflexivity].
  destruct (tag f =? ClassComponent)%N; simpl; [|reflexivity].
  destruct (isLegacyContextProvider (type f)); reflexivity.
Qed.

Lemma scheduleRootUpdate_run (cur : Fiber) (el : JsVal) (e : ExpirationTime)
    (cb : JsVal) (w : World) :
  scheduleRootUpdate cur el e cb w =
  (Return e,
   set_trace
     (set_didWarnAboutNestedUpdates w
        (didWarnAboutNestedUpdates w || nestedUpdateFires w))
     (trace w ++ scheduleRootUpdateEvents w cur el e cb)).
Proof.
  destruct w as [dn df ph rc tool now heap tr].
  unfold scheduleRootUpdate, scheduleRootUpdateEvents, warnAboutNestedUpdates,
    nestedUpdateEvents, nestedUpdateFires, callbackEvents, rootUpdate,
    normalizedCallback, createUpdate, flushPassiveEffects, enqueueUpdate,
    scheduleWork, warningWithoutStack, set_trace,
    set_didWarnAboutNestedUpdates, set_payload, set_callback.
  run.
  destruct DEV; simpl;
    destruct ph as [ph|]; destruct rc as [rc|]; simpl;
    try destruct (String.eqb ph "render"); simpl;
    destruct dn; simpl;
    destruct cb; simpl;
    rewrite <- ?app_assoc; simpl; reflexivity.
Qed.

Lemma updateContainerAtExpirationTime_run (el : JsVal) (c : RootRef)
    (p : Maybe Component) (e : ExpirationTime) (cb : JsVal) (w : World)
    (root : FiberRoot) (ctx : JsVal) :
  roots w !! c = Some root ->
  subtreeContext p = Return ctx ->
  updateContainerAtExpirationTime el c p e cb w =
  (Return e,
   set_trace
     (set_didWarnAboutNestedUpdates
        (set_roots w (<[c := stageContext root ctx]> (roots w)))
        (didWarnAboutNestedUpdates w || nestedUpdateFires w))
     (trace w ++ debugToolEvents w c (current root) el ++
      ConsoleLog "getContextForSubtree" ::
      scheduleRootUpdateEvents w (current root) el e cb)).
Proof.
  intros Hroot Hctx.
  unfold updateContainerAtExpirationTime, bind at 1, read_root at 1.
  rewrite Hroot.
  unfold bind at 1.
  assert (Hdbg :
    (if DEV then notifyDebugTool c (current root) el else ret tt) w =
    (Return tt, set_trace w (trace w ++ debugToolEvents w c (current root) el))).
  { unfold notifyDebugTool, debugToolEvents. run.
    destruct w as [dn df ph rc tool now heap tr]; simpl.
    destruct DEV; simpl; [|by rewrite app_nil_r].
    destruct tool; simpl; [|by rewrite app_nil_r].
    destruct (alternate (current root)); [|reflexivity].
    destruct (strict_equals el VNull); reflexivity. }
  rewrite Hdbg. clear Hdbg.
  unfold bind at 1. rewrite getContextForSubtree_run, Hctx.
  unfold bind at 1, read_root at 1. simpl. rewrite Hroot.
  unfold bind at 1.
  assert (Hw : forall w0,
    (if strict_equals (context root) VNull
     then write_root c (set_context root ctx)
     else write_root c (set_pendingContext root ctx)) w0 =
    (Return tt, set_roots w0 (<[c := stageContext root ctx]> (roots w0)))).
  { intros w0. unfold stageContext, write_root.
    destruct (strict_equals (context root) VNull); reflexivity. }
  rewrite Hw. clear Hw.
  rewrite scheduleRootUpdate_run.
  destruct w as [dn df ph rc tool now heap tr].
  unfold scheduleRootUpdateEvents, nestedUpdateEvents, nestedUpdateFires,
    set_trace, set_roots, set_didWarnAboutNestedUpdates; simpl.
  rewrite <- !app_assoc. reflexivity.
Qed.

Lemma updateContainer_run (el : JsVal) (c : RootRef) (p : Maybe Component)
    (cb : JsVal) (w : World) (root : FiberRoot) :
  roots w !! c = Some root ->
  updateContainer el c p cb w =
  updateContainerAtExpirationTime el c p
    (computeExpirationForFiber (currentTime w) (current root)) cb w.
Proof.
  intros Hroot.
  unfold updateContainer, bind at 1, read_root at 1. rewrite Hroot.
  reflexivity.
Qed.

Lemma events_of_app {A} (m : M A) (w : World) (evs : list Event) :
  trace (after m w) = trace w ++ evs -> events_of m w = evs.
Proof.
  intros Heq. unfold events_of. rewrite Heq. apply drop_app_length.
Qed.

Lemma scheduleRootUpdate_events (cur : Fiber) (el : JsVal)
    (e : ExpirationTime) (cb : JsVal) (w : World) :
  events_of (scheduleRootUpdate cur el e cb) w =
  scheduleRootUpdateEvents w cur el e cb.
Proof.
  apply events_of_app. unfold after. by rewrite scheduleRootUpdate_run.
Qed.

Lemma stageContext_staged (root : FiberRoot) (ctx : JsVal) (c : RootRef)
    (heap : gmap RootRef FiberRoot) :
  contextStaged root ctx c (<[c := stageContext root ctx]> heap).
Proof.
  exists (stageContext root ctx). split; [apply lookup_insert_eq|].
  unfold stageContext, strict_equals.
  split; intros Hc.
  - rewrite bool_decide_eq_true_2 by done. by simpl.
  - rewrite bool_decide_eq_false_2 by done. by simpl.
Qed.

(** C1.  A call of [updateContainerAtExpirationTime] or [updateContainer]
    on a root whose [context] is null stores the context resolved for the
    parent into [context] and leaves [pendingContext] alone; on a root
    whose [context] is set it stores the resolved context into
    [pendingContext] and leaves [context] alone. *)
Theorem updateContainer_stages_context (element : JsVal)
    (container : RootRef) (parentComponent : Maybe Component)
    (e : ExpirationTime) (cb : JsVal) (w : World) (root : FiberRoot)
    (ctx : JsVal) :
  roots w !! container = Some root ->
  outcome (getContextForSubtree parentComponent) w = Return ctx ->
  contextStaged root ctx container
    (roots (after (updateContainerAtExpirationTime element container
                     parentComponent e cb) w)) /\
  contextStaged root ctx container
    (roots (after (updateContainer element container parentComponent cb) w)).
Proof.
  intros Hroot Hctx.
  unfold outcome in Hctx. rewrite getContextForSubtree_run in Hctx.
  simpl in Hctx.
  split.
  - unfold after.
    rewrite (updateContainerAtExpirationTime_run _ _ _ _ _ _ _ _ Hroot Hctx).
    simpl. apply stageContext_staged.
  - unfold after. rewrite (updateContainer_run _ _ _ _ _ _ Hroot).
    rewrite (updateContainerAtExpirationTime_run _ _ _ _ _ _ _ _ Hroot Hctx).
    simpl. apply stageContext_staged.
Qed.

Lemma scheduleRootUpdateEvents_shape (w : World) (cur : Fiber) (el : JsVal)
    (e : ExpirationTime) (cb : JsVal) :
  exists pre mid,
    scheduleRootUpdateEvents w cur el e cb =
      pre ++ CreateUpdate e :: mid ++
      [FlushPassiveEffects; EnqueueUpdate cur (rootUpdate el e cb);
       ScheduleWork cur e] /\
    (pre = [ConsoleLog "scheduleRootUpdate"] \/
     exists n, pre = [ConsoleLog "scheduleRootUpdate";
                      Warning (NestedUpdate n)]) /\
    (mid = [] \/ mid = [Warning (CallbackNotFunction cb)]).
Proof.
  exists (ConsoleLog "scheduleRootUpdate" :: nestedUpdateEvents w),
    (callbackEvents cb).
  split; [reflexivity|].
  unfold nestedUpdateEvents, callbackEvents.
  destruct (ReactCurrentFiberCurrent w) as [rc|];
    [destruct (nestedUpdateFires w)|];
    destruct (DEV && negb (strict_equals (normalizedCallback cb) VNull)
              && negb (typeof_function cb));
    eauto.
Qed.


(** C6.  Whatever tree description is passed, null included, the one
    update [scheduleRootUpdate] enqueues has for payload an object whose
    only property is named [element] and holds the description; the entry
    point hands its description to that path unchanged, so the same holds
    for an unmount request made through it. *)
Theorem scheduleRootUpdate_payload_element (cur : Fiber) (el : JsVal)
    (e : ExpirationTime) (cb : JsVal) (w : World) :
  map payload (enqueued (events_of (scheduleRootUpdate cur el e cb) w)) =
    [PayloadObject [("element", el)]] /\
  map payload (enqueued (events_of (scheduleRootUpdate cur VNull e cb) w)) =
    [PayloadObject [("element", VNull)]] /\
  forall (container : RootRef) (p : Maybe Component) (root : FiberRoot)
         (ctx : JsVal),
    roots w !! container = Some root ->
    outcome (getContextForSubtree p) w = Return ctx ->
    map payload
      (enqueued (events_of
         (updateContainerAtExpirationTime el container p e cb) w)) =
    [PayloadObject [("element", el)]].
Proof.
  assert (Hpath : forall cur0 el0 pre,
    (forall ev, In ev pre -> is_EnqueueUpdate ev = false) ->
    map payload (enqueued (pre ++ scheduleRootUpdateEvents w cur0 el0 e cb)) =
    [PayloadObject [("element", el0)]]).
  { intros cur0 el0 pre Hpre.
    assert (Hdrop : forall t, enqueued (pre ++ t) = enqueued t).
    { induction pre as [|ev pre IH]; intros t; [reflexivity|].
      simpl.
      assert (Hev : is_EnqueueUpdate ev = false) by (apply Hpre; by left).
      rewrite IH by (intros; apply Hpre; by right).
      by destruct ev. }
    rewrite Hdrop.
    destruct (scheduleRootUpdateEvents_shape w cur0 el0 e cb)
      as (pre' & mid & -> & [-> | [n ->]] & [-> | ->]); reflexivity. }
  split; [|split].
  - rewrite scheduleRootUpdate_events. apply (Hpath cur el []). by intros ? [].
  - rewrite scheduleRootUpdate_events. apply (Hpath cur VNull []).
    by intros ? [].
  - intros container p root ctx Hroot Hctx.
    unfold outcome in Hctx. rewrite getContextForSubtree_run in Hctx.
    simpl in Hctx.
    rewrite (events_of_app _ _
      (debugToolEvents w container (current root) el ++
       ConsoleLog "getContextForSubtree" ::
       scheduleRootUpdateEvents w (current root) el e cb)).
    2:{ unfold after.
        by rewrite (updateContainerAtExpirationTime_run
                      _ _ _ _ _ _ _ _ Hroot Hctx). }
    change (debugToolEvents w container (current root) el ++
            ConsoleLog "getContextForSubtree" ::
            scheduleRootUpdateEvents w (current root) el e cb)
      with (debugToolEvents w container (current root) el ++
            [ConsoleLog "getContextForSubtree"] ++
            scheduleRootUpdateEvents w (current root) el e cb).
    rewrite app_assoc.
    apply Hpath. intros ev Hin.
    apply in_app_or in Hin as [Hin | [<- | []]]; [|reflexivity].
    unfold debugToolEvents in Hin.
    destruct (DEV && debugTool w); [|by destruct Hin].
    destruct (alternate (current root));
      [destruct (strict_equals el VNull)|];
      destruct Hin as [<- | []]; reflexivity.
Qed.

(** C7.  [getPublicRootInstance] on a root returns null when the root's
    current node has no child, [getPublicInstance] of the child's
    [stateNode] when the child's tag is [HostComponent], and the child's
    [stateNode] itself for a child of any other tag; it changes nothing. *)
Theorem getPublicRootInstance_cases (container : RootRef) (w : World)
    (root : FiberRoot) :
  roots w !! container = Some root ->
  after (getPublicRootInstance container) w = w /\
  (child (current root) = None ->
   outcome (getPublicRootInstance container) w = Return VNull) /\
  (forall c, child (current root) = Some c -> tag c = HostComponent ->
   outcome (getPublicRootInstance container) w =
     Return (getPublicInstance (stateNode c))) /\
  (forall c, child (current root) = Some c -> tag c <> HostComponent ->
   outcome (getPublicRootInstance container) w = Return (stateNode c)).
Proof.
  intros Hroot.
  unfold outcome, after, getPublicRootInstance, bind, read_root.
  rewrite Hroot.
  destruct (child (current root)) as [c|].
  - destruct (N.eqb_spec (tag c) HostComponent) as [Heq|Hne];
      (split; [reflexivity|]); (split; [discriminate|]); split;
      intros c' [= <-] Htag; try reflexivity; contradiction.
  - repeat split; intros; discriminate.
Qed.

(** C8.  With no parent handle, null or undefined, [getContextForSubtree]
    returns [emptyContextObject]; the results of any two such calls, in
    whatever worlds, are the same value under [===]. *)
Theorem getContextForSubtree_absent_parent (p1 p2 : Maybe Component)
    (w1 w2 : World) :
  absent p1 = true -> absent p2 = true ->
  outcome (getContextForSubtree p1) w1 = Return emptyContextObject /\
  outcome (getContextForSubtree p2) w2 = Return emptyContextObject /\
  forall c1 c2,
    outcome (getContextForSubtree p1) w1 = Return c1 ->
    outcome (getContextForSubtree p2) w2 = Return c2 ->
    strict_equals c1 c2 = true.
Proof.
  intros H1 H2. unfold outcome. rewrite !getContextForSubtree_run. simpl.
  destruct p1; try discriminate; destruct p2; try discriminate; simpl;
    (split; [reflexivity|]); (split; [reflexivity|]);
    intros c1 c2 [= <-] [= <-]; unfold strict_equals;
    by rewrite bool_decide_eq_true_2.
Qed.

(** C9.  [injectIntoDevTools] registers one object with the inspection
    tool and returns what [injectInternals] answers for it.  The reverse
    lookup of that object is the caller's [findFiberByHostInstance] when
    the configuration has one, and returns null for every instance,
    without throwing, when it has none; the forward lookup returns null
    when [findCurrentHostFiber] finds no host fiber and the found fiber's
    [stateNode] otherwise. *)
Theorem injectIntoDevTools_lookups (devToolsConfig : DevToolsConfig)
    (w : World) :
  exists internals,
    registered (events_of (injectIntoDevTools devToolsConfig) w) =
      [internals] /\
    outcome (injectIntoDevTools devToolsConfig) w =
      Return (injectInternals internals) /\
    (forall supplied, findFiberByHostInstance devToolsConfig = Some supplied ->
     forall instance,
       internals_findFiberByHostInstance internals instance =
       supplied instance) /\
    (findFiberByHostInstance devToolsConfig = None ->
     forall instance,
       internals_findFiberByHostInstance internals instance = Return None) /\
    (forall fiber, findCurrentHostFiber fiber = None ->
     internals_findHostInstanceByFiber internals fiber = VNull) /\
    (forall fiber hostFiber, findCurrentHostFiber fiber = Some hostFiber ->
     internals_findHostInstanceByFiber internals fiber =
     stateNode hostFiber).
Proof.
  exists (devToolsInternals devToolsConfig).
  split.
  { rewrite (events_of_app _ _
      [InjectInternals (devToolsInternals devToolsConfig)]); reflexivity. }
  split; [reflexivity|].
  unfold devToolsInternals, findFiberByHostInstance_wrapper,
    findHostInstanceByFiber; simpl.
  repeat split.
  - intros supplied ->. reflexivity.
  - intros ->. reflexivity.
  - intros fiber ->. reflexivity.
  - intros fiber hostFiber ->. reflexivity.
Qed.

Lemma findHostInstance_run (component : Component) (w : World) :
  findHostInstance component w =
  (match getInstance component with
   | None =>
       Throw (InvariantViolation
                (if typeof_function (render component)
                 then UnmountedComponent
                 else NotAReactComponent (keys component)))
   | Some fiber =>
       match findCurrentHostFiber fiber with
       | None => Return VNull
       | Some hostFiber => Return (stateNode hostFiber)
       end
   end, w).
Proof.
  unfold findHostInstance. run.
  destruct (getInstance component) as [fiber|].
  - simpl. by destruct (findCurrentHostFiber fiber).
  - by destruct (typeof_function (render component)).
Qed.

(** *** Operations that raise no strict-mode warning *)

Lemma count_events_app (p : Event -> bool) (t1 t2 : list Event) :
  count_events p (t1 ++ t2) = count_events p t1 + count_events p t2.
Proof.
  induction t1 as [|ev t1 IH]; simpl; [reflexivity|]. rewrite IH. lia.
Qed.

Lemma count_strictMode_for_le (name : string) (t : list Event) :
  count_events (warns_strictMode_for name) t <=
  count_events is_strictModeWarning t.
Proof.
  induction t as [|ev t IH]; simpl; [lia|].
  destruct ev as [| [| |b m n st] | | | | | |]; simpl; try lia.
  destruct (String.eqb n name); lia.
Qed.

Lemma quiet_ret {A} (a : A) : quiet (ret a).
Proof. intros w. split; [reflexivity|]. exists []. by rewrite app_nil_r. Qed.

Lemma quiet_emit (ev : Event) :
  is_strictModeWarning ev = false -> quiet (emit ev).
Proof.
  intros Hev w. split; [reflexivity|]. exists [ev]. split; [reflexivity|].
  simpl. by rewrite Hev.
Qed.

Lemma quiet_bind {A B} (m : M A) (k : A -> M B) :
  quiet m -> (forall a, quiet (k a)) -> quiet (bind m k).
Proof.
  intros Hm Hk w. destruct (Hm w) as (Hd & evs & Ht & Hc).
  unfold after, bind in *. revert Hd Ht.
  destruct (m w) as [[a|e] w1]; simpl; intros Hd Ht.
  - destruct (Hk a w1) as (Hd' & evs' & Ht' & Hc').
    unfold after in Hd', Ht'.
    split; [congruence|]. exists (evs ++ evs'). split.
    + rewrite Ht', Ht. by rewrite app_assoc.
    + rewrite count_events_app. lia.
  - split; [done|]. by exists evs.
Qed.

Lemma quiet_read_root (c : RootRef) : quiet (read_root c).
Proof.
  intros w. unfold after, read_root. destruct (roots w !! c); simpl;
    (split; [reflexivity|]); exists []; by rewrite app_nil_r.
Qed.

Lemma quiet_write_root (c : RootRef) (r : FiberRoot) : quiet (write_root c r).
Proof. intros w. split; [reflexivity|]. exists []. by rewrite app_nil_r. Qed.

Lemma quiet_scheduleRootUpdate (cur : Fiber) (el : JsVal)
    (e : ExpirationTime) (cb : JsVal) :
  quiet (scheduleRootUpdate cur el e cb).
Proof.
  intros w. unfold after. rewrite scheduleRootUpdate_run. simpl.
  split; [reflexivity|]. eexists. split; [reflexivity|].
  destruct (scheduleRootUpdateEvents_shape w cur el e cb)
    as (pre & mid & -> & [-> | [n ->]] & [-> | ->]); reflexivity.
Qed.

Lemma quiet_getContextForSubtree (p : Maybe Component) :
  quiet (getContextForSubtree p).
Proof.
  intros w. unfold after. rewrite getContextForSubtree_run. simpl.
  split; [reflexivity|]. eexists. split; reflexivity.
Qed.

Lemma quiet_notifyDebugTool (c : RootRef) (cur : Fiber) (el : JsVal) :
  quiet (notifyDebugTool c cur el).
Proof.
  intros w. unfold after, notifyDebugTool, bind, get_world.
  destruct (debugTool w); [|apply (quiet_ret tt w)].
  destruct (alternate cur); [destruct (strict_equals el VNull)|];
    match goal with
    | |- context [emit ?ev] => exact (quiet_emit ev eq_refl w)
    end.
Qed.

Lemma quiet_updateContainerAtExpirationTime (el : JsVal) (c : RootRef)
    (p : Maybe Component) (e : ExpirationTime) (cb : JsVal) :
  quiet (updateContainerAtExpirationTime el c p e cb).
Proof.
  unfold updateContainerAtExpirationTime.
  apply quiet_bind; [apply quiet_read_root|]. intros root.
  apply quiet_bind.
  { destruct DEV; [apply quiet_notifyDebugTool | apply quiet_ret]. }
  intros _. apply quiet_bind; [apply quiet_getContextForSubtree|].
  intros ctx. apply quiet_bind; [apply quiet_read_root|]. intros root'.
  apply quiet_bind; [|intros _; apply quiet_scheduleRootUpdate].
  destruct (strict_equals (context root') VNull); apply quiet_write_root.
Qed.

Lemma quiet_updateContainer (el : JsVal) (c : RootRef)
    (p : Maybe Component) (cb : JsVal) :
  quiet (updateContainer el c p cb).
Proof.
  unfold updateContainer.
  apply quiet_bind; [apply quiet_read_root|]. intros root.
  apply quiet_bind.
  { intros w. split; [reflexivity|]. exists []. by rewrite app_nil_r. }
  intros now. apply quiet_updateContainerAtExpirationTime.
Qed.

Lemma quiet_findHostInstance (component : Component) :
  quiet (findHostInstance component).
Proof.
  intros w. unfold after. rewrite findHostInstance_run. simpl.
  split; [reflexivity|]. exists []. by rewrite app_nil_r.
Qed.

Lemma quiet_preserves_warningsRecorded {A} (m : M A) (w : World) :
  quiet m -> warningsRecorded w -> warningsRecorded (after m w).
Proof.
  intros Hq [Hproto Hinv]. destruct (Hq w) as (Hd & evs & Ht & Hc).
  split; [by rewrite Hd|]. intros name.
  rewrite Hd, Ht, count_events_app.
  pose proof (count_strictMode_for_le name evs). specialize (Hinv name). lia.
Qed.

(** *** The strict-mode warning *)

Lemma lookup_truthy_false (m : gmap string bool) (name : string) :
  m !! "__proto__" = None ->
  lookup_truthy m name = false ->
  recorded m name = 0 /\ name <> "__proto__" /\
  assign_true m name = <[name := true]> m.
Proof.
  unfold lookup_truthy, recorded, assign_true. intros Hproto Hl.
  assert (Hne : name <> "__proto__").
  { intros ->. rewrite Hproto in Hl.
    apply bool_decide_eq_false in Hl. apply Hl.
    unfold object_prototype_keys. set_solver. }
  split; [|split; [done|]].
  - destruct (m !! name) as [b|]; [by subst b|reflexivity].
  - by destruct (String.eqb_spec name "__proto__").
Qed.

Lemma warnAboutFindNodeInStrictMode_recorded (fiber hostFiber : Fiber)
    (methodName : string) (w : World) :
  warningsRecorded w ->
  warningsRecorded
    (after (warnAboutFindNodeInStrictMode fiber hostFiber methodName) w).
Proof.
  intros [Hproto Hinv].
  unfold after, warnAboutFindNodeInStrictMode.
  destruct (inStrictMode hostFiber); [|by split].
  set (name := or_default (getComponentName (type fiber)) "Component").
  unfold bind at 1, get_world.
  destruct (lookup_truthy (didWarnAboutFindNodeInStrictMode w) name) eqn:Hl;
    simpl; [by split|].
  destruct (lookup_truthy_false _ _ Hproto Hl) as (Hrec & Hne & Hassign).
  assert (Hrun : forall inside,
    warningsRecorded
      (snd (bind
         (put_world (set_didWarnAboutFindNodeInStrictMode w
            (assign_true (didWarnAboutFindNodeInStrictMode w) name)))
         (fun _ => warningWithoutStack false
            (FindNodeInStrictMode inside methodName name
               (getStackByFiberInDevAndProd hostFiber))) w))).
  { intros inside. unfold bind, put_world, warningWithoutStack, emit, ret.
    rewrite Hassign.
    assert (Hstep : forall n,
      count_events (warns_strictMode_for n)
        (trace w ++ [Warning (FindNodeInStrictMode inside methodName name
                       (getStackByFiberInDevAndProd hostFiber))]) <=
      recorded (<[name := true]> (didWarnAboutFindNodeInStrictMode w)) n).
    { intros n. rewrite count_events_app. simpl. specialize (Hinv n).
      unfold recorded in *.
      destruct (String.eqb_spec name n) as [<-|Hn].
      - rewrite lookup_insert_eq. lia.
      - rewrite lookup_insert_ne by done. lia. }
    assert (Hbase : forall n,
      count_events (warns_strictMode_for n) (trace w) <=
      recorded (<[name := true]> (didWarnAboutFindNodeInStrictMode w)) n).
    { intros n. specialize (Hinv n). unfold recorded in *.
      destruct (String.eqb_spec name n) as [<-|Hn].
      - rewrite lookup_insert_eq. lia.
      - by rewrite lookup_insert_ne. }
    destruct DEV; simpl; (split; simpl; [by rewrite lookup_insert_ne|done]). }
  destruct (inStrictMode fiber); apply Hrun.
Qed.

Lemma findHostInstanceWithWarning_recorded (component : Component)
    (methodName : string) (w : World) :
  warningsRecorded w ->
  warningsRecorded (after (findHostInstanceWithWarning component methodName) w).
Proof.
  intros Hinv. unfold findHostInstanceWithWarning.
  destruct DEV.
  2:{ apply quiet_preserves_warningsRecorded;
        [apply quiet_findHostInstance | done]. }
  unfold after, bind at 1.
  destruct (getInstance component) as [fiber|].
  - unfold ret at 1.
    destruct (findCurrentHostFiber fiber) as [hostFiber|]; [|done].
    pose proof (warnAboutFindNodeInStrictMode_recorded
                  fiber hostFiber methodName w Hinv) as Hw.
    unfold after in Hw. unfold bind.
    by destruct (warnAboutFindNodeInStrictMode fiber hostFiber methodName w)
      as [[[]|e] w1].
  - by destruct (typeof_function (render component)).
Qed.

Lemma run_step_recorded (s : Step) (w : World) :
  warningsRecorded w -> warningsRecorded (run_step s w).
Proof.
  intros Hinv. destruct s; simpl.
  - apply quiet_preserves_warningsRecorded;
      [apply quiet_updateContainer | done].
  - apply quiet_preserves_warningsRecorded;
      [apply quiet_updateContainerAtExpirationTime | done].
  - apply quiet_preserves_warningsRecorded;
      [apply quiet_findHostInstance | done].
  - by apply findHostInstanceWithWarning_recorded.
  - apply quiet_preserves_warningsRecorded; [|done].
    unfold getPublicRootInstance.
    apply quiet_bind; [apply quiet_read_root|]. intros root.
    destruct (child (current root)) as [c|]; [|apply quiet_ret].
    destruct (tag c =? HostComponent)%N; apply quiet_ret.
  - apply quiet_preserves_warningsRecorded; [|done].
    unfold findHostInstanceWithNoPortals.
    destruct (findCurrentHostFiberWithNoPortals fiber); apply quiet_ret.
  - apply quiet_preserves_warningsRecorded; [|done].
    unfold injectIntoDevTools.
    apply quiet_bind; [by apply quiet_emit|]. intros _. apply quiet_ret.
  - exact Hinv.
Qed.

Lemma run_steps_recorded (ss : list Step) (w : World) :
  warningsRecorded w -> warningsRecorded (run_steps ss w).
Proof.
  revert w. induction ss as [|s ss IH]; intros w Hinv; simpl; [done|].
  by apply IH, run_step_recorded.
Qed.

Lemma recorded_le_1 (m : gmap string bool) (name : string) :
  recorded m name <= 1.
Proof. unfold recorded. destruct (m !! name) as [[]|]; lia. Qed.

(** C5.  [findHostInstanceWithWarning] has the outcome of
    [findHostInstance] on every handle, in a development build as in a
    production one: the same value when it returns, the same failure when
    it throws.  And in any session that starts at module load, whatever
    operations are called and however the environment moves between the
    calls, the strict-mode deprecation warning is raised at most once for
    each component name. *)
Theorem findHostInstanceWithWarning_same_value_warns_once :
  (forall (component : Component) (methodName : string) (w : World),
     outcome (findHostInstanceWithWarning component methodName) w =
     outcome (findHostInstance component) w) /\
  (forall (phase : option string) (cur : option Fiber) (tool : bool)
          (now : ExpirationTime) (heap : gmap RootRef FiberRoot)
          (steps : list Step) (name : string),
     count_events (warns_strictMode_for name)
       (trace (run_steps steps (initialWorld phase cur tool now heap))) <= 1).
Proof.
  split.
  - intros component methodName w.
    unfold outcome, findHostInstanceWithWarning.
    destruct DEV; [|reflexivity].
    rewrite findHostInstance_run. unfold bind at 1.
    destruct (getInstance component) as [fiber|].
    + unfold ret at 1.
      destruct (findCurrentHostFiber fiber) as [hostFiber|]; [|reflexivity].
      assert (Hw : exists w1,
        warnAboutFindNodeInStrictMode fiber hostFiber methodName w =
        (Return tt, w1)).
      { unfold warnAboutFindNodeInStrictMode, bind, get_world, put_world,
          warningWithoutStack, emit, ret.
        destruct (inStrictMode hostFiber); [|eauto].
        destruct (lookup_truthy _ _); simpl; [eauto|].
        destruct (inStrictMode fiber); destruct DEV; simpl; eauto. }
      destruct Hw as [w1 Hw]. unfold bind. by rewrite Hw.
    + by destruct (typeof_function (render component)).
  - intros phase cur tool now heap steps name.
    assert (Hinit : warningsRecorded (initialWorld phase cur tool now heap)).
    { split; [reflexivity|]. intros n. simpl. lia. }
    destruct (run_steps_recorded steps _ Hinit) as [_ Hinv].
    specialize (Hinv name).
    pose proof (recorded_le_1
      (didWarnAboutFindNodeInStrictMode
         (run_steps steps (initialWorld phase cur tool now heap))) name).
    lia.
Qed.

End Properties.

(** * The operations at work in the sample environment *)

Example update_trace :
  events_of (@updateContainerAtExpirationTime (sample true)
               (VString "T1") 0 Null 7%Z (VNumber 1)) world0 =
  [ConsoleLog "getContextForSubtree"; ConsoleLog "scheduleRootUpdate";
   CreateUpdate 7%Z; Warning (CallbackNotFunction (VNumber 1));
   FlushPassiveEffects;
   EnqueueUpdate hostRootFiber
     {| expirationTime := 7%Z;
        payload := PayloadObject [("element", VString "T1")];
        callback := VNumber 1 |};
   ScheduleWork hostRootFiber 7%Z].
Proof. reflexivity. Qed.

Example update_uses_clock :
  outcome (@updateContainer (sample true) (VString "T1") 1
             (Present mountedApp) VUndefined) world0 = Return 100%Z.
Proof. reflexivity. Qed.

Example update_of_missing_root :
  outcome (@updateContainer (sample true) (VString "T1") 9 Null VUndefined)
    world0 = Throw (TypeError "container is not a root").
Proof. reflexivity. Qed.

Example host_of_mounted :
  outcome (@findHostInstance (sample true) mountedApp) world0 =
  Return (VObject 10).
Proof. reflexivity. Qed.

Example host_of_unmounted :
  outcome (@findHostInstance (sample true) unmountedApp) world0 =
  Throw (InvariantViolation UnmountedComponent).
Proof. reflexivity. Qed.

Example host_of_foreign :
  outcome (@findHostInstance (sample true) foreignObject) world0 =
  Throw (InvariantViolation (NotAReactComponent ["a"; "b"])).
Proof. reflexivity. Qed.

Example strict_warning_once :
  events_of (fun w =>
      @findHostInstanceWithWarning (sample true) strictApp "findDOMNode"
        (after (@findHostInstanceWithWarning (sample true) strictApp
                  "findDOMNode") w)) world0 =
  [Warning (FindNodeInStrictMode true "findDOMNode" "App" "")].
Proof. reflexivity. Qed.

Example inherited_name_never_warned :
  lookup_truthy ∅ "toString" = true /\ lookup_truthy ∅ "App" = false.
Proof. split; reflexivity. Qed.

Example portal_hides_host :
  let portal := mkFiber 4%N VNull VNull 0%N (Some divFiber) None None in
  firstHostFiber 5%N 4%N false portal = Some divFiber /\
  firstHostFiber 5%N 4%N true portal = None.
Proof. split; reflexivity. Qed.

(** The reflection of the sample environment answers with host nodes
    only, and with the node it is given when that is one. *)
Lemma walkHostFibers_tag (hostKind portalKind : WorkTag) (noPortals : bool) :
  forall node hostFiber,
    walkHostFibers hostKind portalKind noPortals node = Some hostFiber ->
    tag hostFiber = hostKind.
Proof.
  fix IH 1. intros [t ty inst m ch sib alt] hostFiber. simpl.
  destruct (N.eqb_spec t hostKind) as [Heq|Hne].
  { intros [= <-]. exact Heq. }
  assert (Hsib :
    match sib with
    | Some s => walkHostFibers hostKind portalKind noPortals s
    | None => None
    end = Some hostFiber -> tag hostFiber = hostKind).
  { destruct sib as [s|]; [apply IH | discriminate]. }
  destruct (noPortals && (t =? portalKind)%N); [exact Hsib|].
  destruct ch as [c|]; [|exact Hsib].
  destruct (walkHostFibers hostKind portalKind noPortals c) as [h|] eqn:Hc;
    [|exact Hsib].
  intros [= <-]. exact (IH c h Hc).
Qed.

Lemma firstHostFiber_tag (hostKind portalKind : WorkTag) (noPortals : bool)
    (parent hostFiber : Fiber) :
  firstHostFiber hostKind portalKind noPortals parent = Some hostFiber ->
  tag hostFiber = hostKind.
Proof.
  unfold firstHostFiber.
  destruct (N.eqb_spec (tag parent) hostKind) as [Heq|Hne].
  { intros [= <-]. exact Heq. }
  destruct (noPortals && (tag parent =? portalKind)%N); [discriminate|].
  destruct (child parent) as [c|]; [|discriminate].
  apply walkHostFibers_tag.
Qed.

Lemma firstHostFiber_self (hostKind portalKind : WorkTag) (noPortals : bool)
    (parent : Fiber) :
  tag parent = hostKind ->
  firstHostFiber hostKind portalKind noPortals parent = Some parent.
Proof.
  intros Htag. unfold firstHostFiber. by rewrite Htag, N.eqb_refl.
Qed.

(** * Instances of the properties *)

Lemma updateContainer_stages_context_witness :
  (contextStaged freshRoot (VObject 0) 0
     (roots (after (@updateContainerAtExpirationTime (sample true)
                      (VString "T1") 0 Null 7%Z VUndefined) world0)) /\
   contextStaged freshRoot (VObject 0) 0
     (roots (after (@updateContainer (sample true)
                      (VString "T1") 0 Null VUndefined) world0))) /\
  (contextStaged committedRoot (VObject 1) 1
     (roots (after (@updateContainerAtExpirationTime (sample true)
                      (VString "T1") 1 (Present mountedApp) 7%Z VUndefined)
               world0)) /\
   contextStaged committedRoot (VObject 1) 1
     (roots (after (@updateContainer (sample true)
                      (VString "T1") 1 (Present mountedApp) VUndefined)
               world0))).
Proof.
  split.
  - apply (@updateContainer_stages_context (sample true)
             (VString "T1") 0 Null 7%Z VUndefined world0 freshRoot (VObject 0));
      reflexivity.
  - apply (@updateContainer_stages_context (sample true)
             (VString "T1") 1 (Present mountedApp) 7%Z VUndefined world0
             committedRoot (VObject 1));
      reflexivity.
Defined.



Lemma scheduleRootUpdate_payload_element_witness :
  map payload
    (enqueued (events_of (@updateContainerAtExpirationTime (sample true)
                            VNull 1 Null 7%Z VUndefined) world0)) =
  [PayloadObject [("element", VNull)]].
Proof.
  destruct (@scheduleRootUpdate_payload_element (sample true)
              hostRootFiber VNull 7%Z VUndefined world0) as (_ & _ & Hentry).
  apply (Hentry 1 Null committedRoot (VObject 0)); reflexivity.
Defined.

Lemma getPublicRootInstance_cases_witness :
  outcome (@getPublicRootInstance (sample true) 0) world0 =
  Return (VObject 11).
Proof.
  destruct (@getPublicRootInstance_cases (sample true) 0 world0 freshRoot
              eq_refl) as (_ & _ & _ & Hother).
  apply (Hother appFiber); [reflexivity | discriminate].
Defined.

Lemma getContextForSubtree_absent_parent_witness :
  outcome (@getContextForSubtree (sample true) Null) world0 =
    Return (VObject 0) /\
  outcome (@getContextForSubtree (sample true) Undefined)
    (after (@getContextForSubtree (sample true) Null) world0) =
    Return (VObject 0) /\
  forall c1 c2,
    outcome (@getContextForSubtree (sample true) Null) world0 = Return c1 ->
    outcome (@getContextForSubtree (sample true) Undefined)
      (after (@getContextForSubtree (sample true) Null) world0) =
      Return c2 ->
    strict_equals c1 c2 = true.
Proof.
  apply (@getContextForSubtree_absent_parent (sample true) Null Undefined
           world0 (after (@getContextForSubtree (sample true) Null) world0));
    reflexivity.
Defined.

Lemma injectIntoDevTools_lookups_witness :
  exists internals,
    registered (events_of (@injectIntoDevTools (sample true) bareConfig)
                  world0) = [internals] /\
    outcome (@injectIntoDevTools (sample true) bareConfig) world0 =
      Return true /\
    internals_findFiberByHostInstance internals (VObject 10) = Return None /\
    internals_findHostInstanceByFiber internals appFiber = VObject 10.
Proof.
  destruct (@injectIntoDevTools_lookups (sample true) bareConfig world0)
    as (internals & Hreg & Hout & _ & Habsent & _ & Hfound).
  exists internals. split; [exact Hreg|]. split; [exact Hout|]. split.
  - apply Habsent. reflexivity.
  - apply (Hfound appFiber divFiber). reflexivity.
Defined.

(** * Further properties of the operations *)

Section UpdatePath.

Context `{Collaborators}.

Lemma enqueuedOn_app (t1 t2 : list Event) :
  enqueuedOn (t1 ++ t2) = enqueuedOn t1 ++ enqueuedOn t2.
Proof.
  induction t1 as [|ev t1 IH]; [reflexivity|].
  destruct ev; simpl; by rewrite IH.
Qed.


Lemma scheduled_app (t1 t2 : list Event) :
  scheduled (t1 ++ t2) = scheduled t1 ++ scheduled t2.
Proof.
  induction t1 as [|ev t1 IH]; [reflexivity|].
  destruct ev; simpl; by rewrite IH.
Qed.

Lemma debugHooks_app (t1 t2 : list Event) :
  debugHooks (t1 ++ t2) = debugHooks t1 ++ debugHooks t2.
Proof.
  induction t1 as [|ev t1 IH]; [reflexivity|].
  destruct ev; simpl; by rewrite IH.
Qed.

Lemma count_events_plus (p : Event -> bool) (t1 t2 : list Event) :
  count_events p (t1 ++ t2) = count_events p t1 + count_events p t2.
Proof.
  induction t1 as [|ev t1 IH]; simpl; [reflexivity|]. rewrite IH. lia.
Qed.

Lemma nestedUpdateFires_iff (w : World) :
  nestedUpdateFires w = true <->
  DEV = true /\ ReactCurrentFiberPhase w = Some "render" /\
  (exists f, ReactCurrentFiberCurrent w = Some f) /\
  didWarnAboutNestedUpdates w = false.
Proof.
  unfold nestedUpdateFires.
  destruct DEV; simpl; [|by split; [|intros (? & _)]].
  destruct (ReactCurrentFiberPhase w) as [ph|];
    [|split; [done | by intros (_ & ? & _)]].
  destruct (ReactCurrentFiberCurrent w) as [f|];
    [|split; [done | by intros (_ & _ & [? ?] & _)]].
  destruct (String.eqb_spec ph "render") as [->|Hne]; simpl.
  - destruct (didWarnAboutNestedUpdates w); simpl.
    + split; [done | by intros (_ & _ & _ & ?)].
    + split; [|done]. intros _. eauto.
  - split; [done|]. intros (_ & [= Heq] & _). by destruct Hne.
Qed.

Lemma nestedUpdateEvents_fires (w : World) :
  nestedUpdateEvents w =
  if nestedUpdateFires w then
    match ReactCurrentFiberCurrent w with
    | Some cur =>
        [Warning (NestedUpdate
                    (or_default (getComponentName (type cur)) "Unknown"))]
    | None => []
    end
  else [].
Proof.
  unfold nestedUpdateEvents.
  destruct (ReactCurrentFiberCurrent w) as [cur|] eqn:Hcur; [done|].
  by destruct (nestedUpdateFires w).
Qed.

(** X2.  A callback that is null, undefined or a function raises no
    callback warning; the update enqueued carries the function, or null
    when the argument was null or undefined. *)
Theorem scheduleRootUpdate_callback_null_or_function (cur : Fiber)
    (el : JsVal) (e : ExpirationTime) (cb : JsVal) (w : World) :
  cb = VNull \/ cb = VUndefined \/ typeof_function cb = true ->
  let evs := events_of (scheduleRootUpdate cur el e cb) w in
  count_events is_callbackWarning evs = 0 /\
  map callback (enqueued evs) = [if typeof_function cb then cb else VNull].
Proof.
  intros Hcb. simpl. rewrite scheduleRootUpdate_events.
  unfold scheduleRootUpdateEvents, rootUpdate.
  rewrite nestedUpdateEvents_fires.
  assert (Hev : callbackEvents cb = []).
  { unfold callbackEvents, normalizedCallback.
    destruct Hcb as [-> | [-> | Hfun]]; simpl;
      [by destruct DEV | by destruct DEV|].
    rewrite Hfun. simpl. by rewrite andb_false_r. }
  assert (Hnorm : normalizedCallback cb =
                  if typeof_function cb then cb else VNull).
  { unfold normalizedCallback.
    destruct Hcb as [-> | [-> | Hfun]]; [reflexivity | reflexivity|].
    rewrite Hfun. by destruct cb. }
  rewrite Hev, Hnorm.
  destruct (nestedUpdateFires w);
    [destruct (ReactCurrentFiberCurrent w)|]; split; reflexivity.
Qed.

(** X3.  The nested-update warning is raised by [scheduleRootUpdate]
    exactly in a development build, while the current phase is ['render']
    with a current fiber, and if it was not raised before: then it is
    raised once, naming that fiber's component (['Unknown'] when it has
    no name), and [didWarnAboutNestedUpdates] becomes true.  In every
    other case no such warning is raised and the flag stays as it was. *)
Theorem scheduleRootUpdate_nested_warning (cur : Fiber) (el : JsVal)
    (e : ExpirationTime) (cb : JsVal) (w : World) :
  let evs := events_of (scheduleRootUpdate cur el e cb) w in
  let w' := after (scheduleRootUpdate cur el e cb) w in
  (forall f,
     DEV = true -> ReactCurrentFiberPhase w = Some "render" ->
     ReactCurrentFiberCurrent w = Some f ->
     didWarnAboutNestedUpdates w = false ->
     count_events is_nestedUpdateWarning evs = 1 /\
     In (Warning (NestedUpdate
                    (or_default (getComponentName (type f)) "Unknown"))) evs /\
     didWarnAboutNestedUpdates w' = true) /\
  (DEV = false \/ ReactCurrentFiberPhase w <> Some "render" \/
   ReactCurrentFiberCurrent w = None \/
   didWarnAboutNestedUpdates w = true ->
   count_events is_nestedUpdateWarning evs = 0 /\
   didWarnAboutNestedUpdates w' = didWarnAboutNestedUpdates w).
Proof.
  cbv zeta. rewrite scheduleRootUpdate_events.
  assert (Hflag' :
    didWarnAboutNestedUpdates (after (scheduleRootUpdate cur el e cb) w) =
    didWarnAboutNestedUpdates w || nestedUpdateFires w).
  { unfold after. by rewrite scheduleRootUpdate_run. }
  rewrite Hflag'. clear Hflag'.
  assert (Hcb : count_events is_nestedUpdateWarning
                  (CreateUpdate e :: callbackEvents cb ++
                   [FlushPassiveEffects;
                    EnqueueUpdate cur (rootUpdate el e cb);
                    ScheduleWork cur e]) = 0).
  { unfold callbackEvents.
    by destruct (DEV && negb (strict_equals (normalizedCallback cb) VNull)
                 && negb (typeof_function cb)). }
  assert (Hcount :
    count_events is_nestedUpdateWarning
      (scheduleRootUpdateEvents w cur el e cb) =
    count_events is_nestedUpdateWarning (nestedUpdateEvents w)).
  { unfold scheduleRootUpdateEvents.
    cbn [count_events is_nestedUpdateWarning Nat.add].
    rewrite count_events_plus, Hcb. lia. }
  rewrite Hcount. clear Hcount Hcb.
  rewrite nestedUpdateEvents_fires.
  split.
  - intros f Hdev Hph Hcur Hflag.
    assert (Hfires : nestedUpdateFires w = true).
    { apply nestedUpdateFires_iff. eauto. }
    rewrite Hfires, Hcur, Hflag.
    split; [reflexivity|]. split; [|reflexivity].
    unfold scheduleRootUpdateEvents. rewrite nestedUpdateEvents_fires.
    rewrite Hfires, Hcur. right. by left.
  - intros Hnot.
    assert (Hfires : nestedUpdateFires w = false).
    { destruct (nestedUpdateFires w) eqn:Hf; [|reflexivity].
      apply nestedUpdateFires_iff in Hf as (Hdev & Hph & [f Hcur] & Hflag).
      destruct Hnot as [Hd | [Hp | [Hc | Hw]]]; congruence. }
    rewrite Hfires. split; [reflexivity|]. apply orb_false_r.
Qed.

End UpdatePath.

(** ** Invariants of a session *)

(** A property of the world that survives each kind of effect the module
    has survives every step of a session. *)
Section SessionInvariant.

Context `{Collaborators}.

Variable I : World -> Prop.

Hypothesis I_plain :
  forall w ev, is_plainEvent ev = true -> I w ->
    I (set_trace w (trace w ++ [ev])).
Hypothesis I_roots : forall w heap, I w -> I (set_roots w heap).
Hypothesis I_environment :
  forall w phase cur tool now heap, I w ->
    I (set_environment w phase cur tool now heap).
Hypothesis I_debugTool :
  DEV = true -> forall w hook c, I w ->
    I (set_trace w (trace w ++ [DebugTool hook c])).
Hypothesis I_callbackWarning :
  DEV = true -> forall w v, I w ->
    I (set_trace w (trace w ++ [Warning (CallbackNotFunction v)])).
Hypothesis I_nested :
  DEV = true -> forall w, I w -> I (after warnAboutNestedUpdates w).
Hypothesis I_strict :
  DEV = true -> forall fiber hostFiber methodName w, I w ->
    I (after (warnAboutFindNodeInStrictMode fiber hostFiber methodName) w).

Local Abbreviation keeps m := (forall w, I w -> I (after m w)).

Ltac case_DEV Hdev :=
  destruct (Sumbool.sumbool_of_bool DEV) as [Hdev|Hdev]; rewrite Hdev.

Lemma keeps_ret {A} (a : A) : keeps (ret a).
Proof. by intros w. Qed.

Lemma keeps_bind {A B} (m : M A) (k : A -> M B) :
  keeps m -> (forall a, keeps (k a)) -> keeps (bind m k).
Proof.
  intros Hm Hk w Hw. specialize (Hm w Hw). unfold after, bind in *.
  destruct (m w) as [[a|e] w1]; simpl in *; [by apply Hk | done].
Qed.

Lemma keeps_emit (ev : Event) : is_plainEvent ev = true -> keeps (emit ev).
Proof. intros Hev w Hw. by apply I_plain. Qed.

Lemma keeps_read_root (c : RootRef) : keeps (read_root c).
Proof. intros w Hw. unfold after, read_root. by destruct (roots w !! c). Qed.

Lemma keeps_write_root (c : RootRef) (r : FiberRoot) : keeps (write_root c r).
Proof. intros w Hw. by apply I_roots. Qed.

Lemma keeps_getContextForSubtree (p : Maybe Component) :
  keeps (getContextForSubtree p).
Proof.
  intros w Hw. unfold after. rewrite getContextForSubtree_run. simpl.
  by apply I_plain.
Qed.

Lemma keeps_notifyDebugTool (c : RootRef) (cur : Fiber) (el : JsVal) :
  DEV = true -> keeps (notifyDebugTool c cur el).
Proof.
  intros Hdev w Hw. unfold after, notifyDebugTool, bind, get_world.
  destruct (debugTool w); [|done].
  destruct (alternate cur); [destruct (strict_equals el VNull)|];
    by apply I_debugTool.
Qed.

Lemma keeps_scheduleRootUpdate (cur : Fiber) (el : JsVal)
    (e : ExpirationTime) (cb : JsVal) :
  keeps (scheduleRootUpdate cur el e cb).
Proof.
  unfold scheduleRootUpdate.
  apply keeps_bind; [by apply keeps_emit|]. intros _.
  apply keeps_bind.
  { case_DEV Hdev; [by apply I_nested | apply keeps_ret]. }
  intros _. apply keeps_bind.
  { unfold createUpdate. apply keeps_bind; [by apply keeps_emit|].
    intros _. apply keeps_ret. }
  intros u. apply keeps_bind.
  { destruct (negb _); [|apply keeps_ret].
    apply keeps_bind; [|intros _; apply keeps_ret].
    unfold warningWithoutStack.
    case_DEV Hdev; simpl; [|apply keeps_ret].
    destruct (negb _); [|apply keeps_ret].
    intros w Hw. by apply I_callbackWarning. }
  intros u'. apply keeps_bind; [by apply keeps_emit|]. intros _.
  apply keeps_bind; [by apply keeps_emit|]. intros _.
  apply keeps_bind; [by apply keeps_emit|]. intros _.
  apply keeps_ret.
Qed.

Lemma keeps_updateContainerAtExpirationTime (el : JsVal) (c : RootRef)
    (p : Maybe Component) (e : ExpirationTime) (cb : JsVal) :
  keeps (updateContainerAtExpirationTime el c p e cb).
Proof.
  unfold updateContainerAtExpirationTime.
  apply keeps_bind; [apply keeps_read_root|]. intros root.
  apply keeps_bind.
  { case_DEV Hdev; [by apply keeps_notifyDebugTool|apply keeps_ret]. }
  intros _. apply keeps_bind; [apply keeps_getContextForSubtree|].
  intros ctx. apply keeps_bind; [apply keeps_read_root|]. intros root'.
  apply keeps_bind; [|intros _; apply keeps_scheduleRootUpdate].
  destruct (strict_equals (context root') VNull); apply keeps_write_root.
Qed.

Lemma keeps_findHostInstanceWithWarning (component : Component)
    (methodName : string) :
  keeps (findHostInstanceWithWarning component methodName).
Proof.
  intros w Hw. unfold findHostInstanceWithWarning.
  case_DEV Hdev.
  2:{ unfold after. by rewrite findHostInstance_run. }
  unfold after, bind at 1.
  destruct (getInstance component) as [fiber|].
  - unfold ret at 1.
    destruct (findCurrentHostFiber fiber) as [hostFiber|]; [|done].
    pose proof (I_strict Hdev fiber hostFiber methodName w Hw) as Hs.
    unfold after in Hs. unfold bind.
    by destruct (warnAboutFindNodeInStrictMode fiber hostFiber methodName w)
      as [[[]|err] w1].
  - by destruct (typeof_function (render component)).
Qed.

Lemma run_step_keeps (s : Step) (w : World) : I w -> I (run_step s w).
Proof.
  intros Hw. destruct s; simpl.
  - revert w Hw. unfold updateContainer.
    apply keeps_bind; [apply keeps_read_root|]. intros root.
    apply keeps_bind; [by intros w|]. intros now.
    apply keeps_updateContainerAtExpirationTime.
  - by apply keeps_updateContainerAtExpirationTime.
  - unfold after. by rewrite findHostInstance_run.
  - by apply keeps_findHostInstanceWithWarning.
  - revert w Hw. unfold getPublicRootInstance.
    apply keeps_bind; [apply keeps_read_root|]. intros root.
    destruct (child (current root)) as [c|]; [|apply keeps_ret].
    destruct (tag c =? HostComponent)%N; apply keeps_ret.
  - unfold findHostInstanceWithNoPortals.
    by destruct (findCurrentHostFiberWithNoPortals fiber).
  - revert w Hw. unfold injectIntoDevTools.
    apply keeps_bind; [by apply keeps_emit|]. intros _. apply keeps_ret.
  - by apply I_environment.
Qed.

Lemma session_invariant (ss : list Step) (w : World) :
  I w -> I (run_steps ss w).
Proof.
  revert w. induction ss as [|s ss IH]; intros w Hw; simpl; [done|].
  by apply IH, run_step_keeps.
Qed.

End SessionInvariant.

Section Sessions_facts.

Context `{Collaborators}.

Lemma warnAboutFindNodeInStrictMode_run (fiber hostFiber : Fiber)
    (methodName : string) (w : World) :
  let name := or_default (getComponentName (type fiber)) "Component" in
  warnAboutFindNodeInStrictMode fiber hostFiber methodName w =
  (Return tt,
   if inStrictMode hostFiber
      && negb (lookup_truthy (didWarnAboutFindNodeInStrictMode w) name)
   then
     set_trace
       (set_didWarnAboutFindNodeInStrictMode w
          (assign_true (didWarnAboutFindNodeInStrictMode w) name))
       (trace w ++
        if DEV then
          [Warning (FindNodeInStrictMode (inStrictMode fiber) methodName name
                      (getStackByFiberInDevAndProd hostFiber))]
        else [])
   else w).
Proof.
  simpl. unfold warnAboutFindNodeInStrictMode.
  destruct (inStrictMode hostFiber); [|reflexivity].
  unfold bind at 1, get_world.
  destruct (lookup_truthy _ _); simpl; [reflexivity|].
  unfold bind, put_world, warningWithoutStack, emit, ret.
  destruct w as [dn df ph rc tool now heap tr].
  destruct (inStrictMode fiber); destruct DEV; simpl;
    rewrite ?app_nil_r; reflexivity.
Qed.

Lemma warnAboutNestedUpdates_run (w : World) :
  warnAboutNestedUpdates w =
  (Return tt,
   match ReactCurrentFiberPhase w, ReactCurrentFiberCurrent w with
   | Some phase, Some cur =>
       if String.eqb phase "render" && negb (didWarnAboutNestedUpdates w)
       then
         set_trace (set_didWarnAboutNestedUpdates w true)
           (trace w ++
            if DEV then
              [Warning (NestedUpdate
                          (or_default (getComponentName (type cur))
                             "Unknown"))]
            else [])
       else w
   | _, _ => w
   end).
Proof.
  unfold warnAboutNestedUpdates, bind at 1, get_world.
  destruct (ReactCurrentFiberPhase w) as [ph|]; [|reflexivity].
  destruct (ReactCurrentFiberCurrent w) as [cur|]; [|reflexivity].
  destruct (String.eqb ph "render" && negb (didWarnAboutNestedUpdates w));
    [|reflexivity].
  unfold bind, put_world, warningWithoutStack, emit, ret.
  destruct w as [dn df ph' rc tool now heap tr].
  destruct DEV; simpl; rewrite ?app_nil_r; reflexivity.
Qed.

(** X4.  In any session that starts at module load, whatever is called
    and however the environment moves between the calls, the
    nested-update warning is raised at most once. *)
Theorem nested_warning_once_per_session (phase : option string)
    (cur : option Fiber) (tool : bool) (now : ExpirationTime)
    (heap : gmap RootRef FiberRoot) (steps : list Step) :
  count_events is_nestedUpdateWarning
    (trace (run_steps steps (initialWorld phase cur tool now heap))) <= 1.
Proof.
  assert (Hinv : nestedRecorded
                   (run_steps steps (initialWorld phase cur tool now heap))).
  { apply session_invariant; unfold nestedRecorded.
    - intros w ev Hev Hw. simpl. rewrite count_events_plus. simpl.
      destruct ev; try discriminate; simpl; lia.
    - by intros w heap' Hw.
    - by intros w ph c t n heap' Hw.
    - intros _ w hook c Hw. simpl. rewrite count_events_plus. simpl. lia.
    - intros _ w v Hw. simpl. rewrite count_events_plus. simpl. lia.
    - intros _ w Hw. unfold after. rewrite warnAboutNestedUpdates_run. simpl.
      destruct (ReactCurrentFiberPhase w) as [ph|]; [|done].
      destruct (ReactCurrentFiberCurrent w) as [c|]; [|done].
      destruct (didWarnAboutNestedUpdates w) eqn:Hflag;
        [by rewrite andb_false_r, Hflag|].
      rewrite andb_true_r.
      destruct (String.eqb ph "render"); [|by rewrite Hflag].
      simpl. rewrite count_events_plus. destruct DEV; simpl; lia.
    - intros _ fiber hostFiber m w Hw. unfold after.
      rewrite warnAboutFindNodeInStrictMode_run. simpl.
      destruct (inStrictMode hostFiber && _); [|done].
      simpl. rewrite count_events_plus. destruct DEV; simpl; lia.
    - simpl. lia. }
  unfold nestedRecorded in Hinv.
  destruct (didWarnAboutNestedUpdates _); lia.
Qed.

(** X5.  In a production build no step of a session touches the
    module's bookkeeping ([didWarnAboutNestedUpdates],
    [didWarnAboutFindNodeInStrictMode]) or calls an instrumentation hook,
    installed or not. *)
Theorem production_keeps_bookkeeping (steps : list Step) (w : World) :
  DEV = false ->
  bookkeepingOf w (run_steps steps w).
Proof.
  intros Hprod.
  apply session_invariant; unfold bookkeepingOf;
    try (intros Hdev; congruence).
  - intros w1 ev Hev (Hn & Hf & Hd). simpl.
    repeat split; [done | done|].
    rewrite count_events_plus, Hd. simpl.
    destruct ev; try discriminate; simpl; lia.
  - by intros w1 heap' Hw.
  - by intros w1 ph c t n heap' Hw.
  - done.
Qed.

(** X6.  A component whose name is a property of [Object.prototype]
    ([toString], [constructor], ...) is never warned about: the lookup in
    the record of warnings already answers true for such a name, so in no
    session from module load is the strict-mode warning raised for it. *)
Theorem inherited_names_never_warned (phase : option string)
    (cur : option Fiber) (tool : bool) (now : ExpirationTime)
    (heap : gmap RootRef FiberRoot) (steps : list Step) (name : string) :
  name ∈ object_prototype_keys ->
  count_events (warns_strictMode_for name)
    (trace (run_steps steps (initialWorld phase cur tool now heap))) = 0.
Proof.
  intros Hname.
  assert (Hinv : inheritedNamesSilent
                   (run_steps steps (initialWorld phase cur tool now heap))).
  { apply session_invariant; unfold inheritedNamesSilent.
    - intros w ev Hev Hw n Hn. destruct (Hw n Hn) as [Hm Hc]. simpl.
      split; [done|]. rewrite count_events_plus, Hc. simpl.
      by destruct ev.
    - by intros w heap' Hw.
    - by intros w ph c t n0 heap' Hw.
    - intros _ w hook c Hw n Hn. destruct (Hw n Hn) as [Hm Hc]. simpl.
      split; [done|]. by rewrite count_events_plus, Hc.
    - intros _ w v Hw n Hn. destruct (Hw n Hn) as [Hm Hc]. simpl.
      split; [done|]. by rewrite count_events_plus, Hc.
    - intros _ w Hw n Hn. destruct (Hw n Hn) as [Hm Hc].
      unfold after. rewrite warnAboutNestedUpdates_run. simpl.
      destruct (ReactCurrentFiberPhase w) as [ph|]; [|done].
      destruct (ReactCurrentFiberCurrent w) as [c|]; [|done].
      destruct (String.eqb ph "render" && _); [|done].
      simpl. split; [done|]. rewrite count_events_plus, Hc.
      by destruct DEV.
    - intros _ fiber hostFiber m w Hw n Hn. destruct (Hw n Hn) as [Hm Hc].
      unfold after. rewrite warnAboutFindNodeInStrictMode_run. simpl.
      set (cn := or_default (getComponentName (type fiber)) "Component").
      destruct (inStrictMode hostFiber); simpl; [|done].
      destruct (lookup_truthy (didWarnAboutFindNodeInStrictMode w) cn)
        eqn:Hl; simpl; [done|].
      assert (Hcn : cn ∉ object_prototype_keys).
      { intros Hin. destruct (Hw cn Hin) as [Hm' _].
        unfold lookup_truthy in Hl. rewrite Hm' in Hl.
        by apply bool_decide_eq_false in Hl. }
      assert (Hne : cn <> n) by (intros ->; done).
      assert (Hproto : cn <> "__proto__").
      { intros Heq. apply Hcn. rewrite Heq.
        apply list_elem_of_In. simpl. tauto. }
      split.
      + unfold assign_true.
        destruct (String.eqb_spec cn "__proto__"); [done|].
        by rewrite lookup_insert_ne.
      + rewrite count_events_plus, Hc.
        destruct DEV; simpl; [|reflexivity].
        destruct (String.eqb_spec cn n); [done | reflexivity].
    - intros n Hn. split; [apply lookup_empty | reflexivity]. }
  by destruct (Hinv name Hname).
Qed.

End Sessions_facts.

(** ** The entry points *)

Section EntryPoints.

Context `{Collaborators}.

Lemma notifyDebugTool_run (c : RootRef) (cur : Fiber) (el : JsVal)
    (w : World) :
  (if DEV then notifyDebugTool c cur el else ret tt) w =
  (Return tt, set_trace w (trace w ++ debugToolEvents w c cur el)).
Proof.
  unfold notifyDebugTool, debugToolEvents, bind, get_world, emit, ret.
  destruct w as [dn df ph rc tool now heap tr]; simpl.
  destruct DEV; simpl; [|by rewrite app_nil_r].
  destruct tool; simpl; [|by rewrite app_nil_r].
  destruct (alternate cur); [|reflexivity].
  destruct (strict_equals el VNull); reflexivity.
Qed.

Lemma updateContainerAtExpirationTime_throws (el : JsVal) (c : RootRef)
    (p : Maybe Component) (e : ExpirationTime) (cb : JsVal) (w : World)
    (root : FiberRoot) (err : Error) :
  roots w !! c = Some root ->
  subtreeContext p = Throw err ->
  updateContainerAtExpirationTime el c p e cb w =
  (Throw err,
   set_trace w (trace w ++ debugToolEvents w c (current root) el ++
                [ConsoleLog "getContextForSubtree"])).
Proof.
  intros Hroot Hctx.
  unfold updateContainerAtExpirationTime, bind at 1, read_root at 1.
  rewrite Hroot. unfold bind at 1. rewrite notifyDebugTool_run.
  unfold bind at 1. rewrite getContextForSubtree_run, Hctx.
  destruct w as [dn df ph rc tool now heap tr]. simpl.
  by rewrite <- app_assoc.
Qed.

Lemma updateContainerAtExpirationTime_no_root (el : JsVal) (c : RootRef)
    (p : Maybe Component) (e : ExpirationTime) (cb : JsVal) (w : World) :
  roots w !! c = None ->
  after (updateContainerAtExpirationTime el c p e cb) w = w /\
  after (updateContainer el c p cb) w = w.
Proof.
  intros Hroot.
  unfold after, updateContainer, updateContainerAtExpirationTime, bind,
    read_root.
  by rewrite Hroot.
Qed.

Lemma outcome_getContextForSubtree (p : Maybe Component) (w : World) :
  outcome (getContextForSubtree p) w = subtreeContext p.
Proof. unfold outcome. by rewrite getContextForSubtree_run. Qed.

Lemma debugToolEvents_shape (w : World) (c : RootRef) (cur : Fiber)
    (el : JsVal) :
  debugToolEvents w c cur el = [] \/
  exists hook, debugToolEvents w c cur el = [DebugTool hook c].
Proof.
  unfold debugToolEvents. destruct (DEV && debugTool w); [|by left].
  destruct (alternate cur); [destruct (strict_equals el VNull)|];
    right; eauto.
Qed.

Lemma scheduleRootUpdateEvents_enqueuedOn (w : World) (cur : Fiber)
    (el : JsVal) (e : ExpirationTime) (cb : JsVal) :
  enqueuedOn (scheduleRootUpdateEvents w cur el e cb) =
    [(cur, rootUpdate el e cb)] /\
  enqueued (scheduleRootUpdateEvents w cur el e cb) = [rootUpdate el e cb] /\
  scheduled (scheduleRootUpdateEvents w cur el e cb) = [(cur, e)] /\
  debugHooks (scheduleRootUpdateEvents w cur el e cb) = [].
Proof.
  destruct (scheduleRootUpdateEvents_shape w cur el e cb)
    as (pre & mid & -> & [-> | [n ->]] & [-> | ->]);
    repeat split; reflexivity.
Qed.

(** The events of a successful call of the entry point. *)
Lemma updateContainerAtExpirationTime_events (el : JsVal) (c : RootRef)
    (p : Maybe Component) (e : ExpirationTime) (cb : JsVal) (w : World)
    (root : FiberRoot) (ctx : JsVal) :
  roots w !! c = Some root ->
  subtreeContext p = Return ctx ->
  events_of (updateContainerAtExpirationTime el c p e cb) w =
  debugToolEvents w c (current root) el ++
  [ConsoleLog "getContextForSubtree"] ++
  scheduleRootUpdateEvents w (current root) el e cb.
Proof.
  intros Hroot Hctx. apply events_of_app. unfold after.
  by rewrite (updateContainerAtExpirationTime_run _ _ _ _ _ _ _ _ Hroot Hctx).
Qed.

(** X7.  When the context cannot be resolved for the parent handle, the
    entry point fails with the error of the resolution and has done
    nothing to the roots: no field of any root is written, no update is
    created, enqueued or scheduled, and no effect is flushed. *)
Theorem updateContainer_failure_leaves_roots (el : JsVal) (c : RootRef)
    (p : Maybe Component) (e : ExpirationTime) (cb : JsVal) (w : World)
    (root : FiberRoot) (err : Error) :
  roots w !! c = Some root ->
  outcome (getContextForSubtree p) w = Throw err ->
  (outcome (updateContainerAtExpirationTime el c p e cb) w = Throw err /\
   roots (after (updateContainerAtExpirationTime el c p e cb) w) = roots w /\
   count_events is_updateEvent
     (events_of (updateContainerAtExpirationTime el c p e cb) w) = 0) /\
  (outcome (updateContainer el c p cb) w = Throw err /\
   roots (after (updateContainer el c p cb) w) = roots w /\
   count_events is_updateEvent
     (events_of (updateContainer el c p cb) w) = 0).
Proof.
  intros Hroot Hctx. rewrite outcome_getContextForSubtree in Hctx.
  assert (Hone : forall e0,
    outcome (updateContainerAtExpirationTime el c p e0 cb) w = Throw err /\
    roots (after (updateContainerAtExpirationTime el c p e0 cb) w) = roots w /\
    count_events is_updateEvent
      (events_of (updateContainerAtExpirationTime el c p e0 cb) w) = 0).
  { intros e0.
    pose proof (updateContainerAtExpirationTime_throws
                  el c p e0 cb w root err Hroot Hctx) as Hrun.
    unfold outcome, after. rewrite Hrun. simpl.
    split; [reflexivity|]. split; [reflexivity|].
    rewrite (events_of_app _ _
      (debugToolEvents w c (current root) el ++
       [ConsoleLog "getContextForSubtree"])).
    2:{ unfold after. by rewrite Hrun. }
    rewrite count_events_plus.
    destruct (debugToolEvents_shape w c (current root) el)
      as [-> | [hook ->]]; reflexivity. }
  split; [apply Hone|].
  unfold outcome, after, events_of, after.
  rewrite (updateContainer_run _ _ _ _ _ _ Hroot). apply Hone.
Qed.

(** X8.  A call of the entry point, successful or not, leaves every
    other root of the heap as it was, creates no root, and changes
    neither [current] nor [containerInfo] of the root it is given. *)
Theorem updateContainer_touches_one_root (el : JsVal) (c : RootRef)
    (p : Maybe Component) (e : ExpirationTime) (cb : JsVal) (w : World) :
  let w' := after (updateContainerAtExpirationTime el c p e cb) w in
  (forall c', c' <> c -> roots w' !! c' = roots w !! c') /\
  (roots w !! c = None -> roots w' !! c = None) /\
  (forall root, roots w !! c = Some root ->
   exists root', roots w' !! c = Some root' /\
     current root' = current root /\
     containerInfo root' = containerInfo root).
Proof.
  cbv zeta. destruct (roots w !! c) as [root|] eqn:Hroot.
  2:{ destruct (updateContainerAtExpirationTime_no_root el c p e cb w Hroot)
        as [-> _].
      split; [done|]. split; [done | discriminate]. }
  destruct (subtreeContext p) as [ctx|err] eqn:Hctx.
  - unfold after.
    rewrite (updateContainerAtExpirationTime_run _ _ _ _ _ _ _ _ Hroot Hctx).
    simpl. split; [|split; [discriminate|]].
    + intros c' Hne. by rewrite lookup_insert_ne.
    + intros root0 [= <-]. exists (stageContext root ctx).
      rewrite lookup_insert_eq. split; [reflexivity|].
      unfold stageContext.
      by destruct (strict_equals (context root) VNull).
  - unfold after.
    rewrite (updateContainerAtExpirationTime_throws _ _ _ _ _ _ _ _
               Hroot Hctx).
    simpl. split; [done|]. split; [discriminate|].
    intros root0 [= <-]. by exists root.
Qed.



(** X11.  The instrumentation hook is called by the entry point only in
    a development build with a debug tool installed, and then once per
    call, before the context is resolved, so also when the resolution
    fails: [onMountContainer] for a root whose current fiber has no
    alternate (even when the element is null), otherwise
    [onUnmountContainer] for a null element and [onUpdateContainer] for
    any other. *)
Theorem updateContainer_debug_hook (el : JsVal) (c : RootRef)
    (p : Maybe Component) (e : ExpirationTime) (cb : JsVal) (w : World)
    (root : FiberRoot) :
  roots w !! c = Some root ->
  debugHooks (events_of (updateContainerAtExpirationTime el c p e cb) w) =
  if DEV && debugTool w then
    [match alternate (current root) with
     | None => onMountContainer
     | Some _ => if strict_equals el VNull
                 then onUnmountContainer else onUpdateContainer
     end]
  else [].
Proof.
  intros Hroot.
  assert (Hdbg : debugHooks (debugToolEvents w c (current root) el) =
    if DEV && debugTool w then
      [match alternate (current root) with
       | None => onMountContainer
       | Some _ => if strict_equals el VNull
                   then onUnmountContainer else onUpdateContainer
       end]
    else []).
  { unfold debugToolEvents. destruct (DEV && debugTool w); [|reflexivity].
    destruct (alternate (current root)); [|reflexivity].
    by destruct (strict_equals el VNull). }
  destruct (subtreeContext p) as [ctx|err] eqn:Hctx.
  - rewrite (updateContainerAtExpirationTime_events _ _ _ _ _ _ _ _
               Hroot Hctx).
    rewrite !debugHooks_app, Hdbg.
    destruct (scheduleRootUpdateEvents_enqueuedOn w (current root) el e cb)
      as (_ & _ & _ & ->).
    simpl. by rewrite app_nil_r.
  - rewrite (events_of_app _ _
      (debugToolEvents w c (current root) el ++
       [ConsoleLog "getContextForSubtree"])).
    2:{ unfold after.
        by rewrite (updateContainerAtExpirationTime_throws _ _ _ _ _ _ _ _
                      Hroot Hctx). }
    rewrite debugHooks_app, Hdbg. simpl. by rewrite app_nil_r.
Qed.

(** X12.  What [getContextForSubtree] does with a parent handle that is
    present.  A handle with no work node behind it never yields a context:
    the call fails.  For a handle with a work node, the legacy provider is
    consulted only when the node is a class component: for any other tag,
    and for a class that is no provider, the result is what
    [findCurrentUnmaskedContext] gives, unchanged; for a class that is a
    provider it is what [processChildContext] makes of that.  No root is
    touched. *)
Theorem getContextForSubtree_present_parent (component : Component)
    (w : World) :
  roots (after (getContextForSubtree (Present component)) w) = roots w /\
  (getInstance component = None ->
   exists err,
     outcome (getContextForSubtree (Present component)) w = Throw err) /\
  (forall fiber, getInstance component = Some fiber ->
   tag fiber <> ClassComponent \/ isLegacyContextProvider (type fiber) = false ->
   outcome (getContextForSubtree (Present component)) w =
   findCurrentUnmaskedContext (Some fiber)) /\
  (forall fiber parentContext, getInstance component = Some fiber ->
   tag fiber = ClassComponent ->
   isLegacyContextProvider (type fiber) = true ->
   findCurrentUnmaskedContext (Some fiber) = Return parentContext ->
   outcome (getContextForSubtree (Present component)) w =
   processChildContext fiber (type fiber) parentContext).
Proof.
  unfold outcome, after. rewrite getContextForSubtree_run. simpl.
  split; [reflexivity|]. split; [|split].
  - intros ->. destruct (findCurrentUnmaskedContext None); eauto.
  - intros fiber -> Hcase.
    destruct (findCurrentUnmaskedContext (Some fiber)); [|reflexivity].
    destruct Hcase as [Htag | Hprov].
    + apply N.eqb_neq in Htag. by rewrite Htag.
    + by rewrite Hprov, andb_false_r.
  - intros fiber pc -> Htag Hprov ->.
    apply N.eqb_eq in Htag. by rewrite Htag, Hprov.
Qed.

End EntryPoints.

(** ** Host lookups *)

Section HostLookups.

Context `{Collaborators}.

Lemma findHostInstanceWithWarning_run (component : Component)
    (methodName : string) (fiber hostFiber : Fiber) (w : World) :
  DEV = true ->
  getInstance component = Some fiber ->
  findCurrentHostFiber fiber = Some hostFiber ->
  findHostInstanceWithWarning component methodName w =
  (Return (stateNode hostFiber),
   snd (warnAboutFindNodeInStrictMode fiber hostFiber methodName w)).
Proof.
  intros Hdev Hfiber Hhost. unfold findHostInstanceWithWarning.
  rewrite Hdev, Hfiber. unfold bind at 1, ret at 1. rewrite Hhost.
  unfold bind. rewrite warnAboutFindNodeInStrictMode_run. reflexivity.
Qed.

(** X13.  The strict-mode warning is keyed by the component name alone.
    In a development build, the first lookup on a component whose host
    fiber is in strict mode, under a name not seen before, raises the
    warning once, worded after the component's own mode; a later lookup
    on any component of that name, through whatever method, raises
    nothing and changes nothing. *)
Theorem findHostInstanceWithWarning_dedupes_by_name
    (c1 c2 : Component) (m1 m2 : string) (f1 h1 f2 h2 : Fiber) (w : World) :
  DEV = true ->
  getInstance c1 = Some f1 -> findCurrentHostFiber f1 = Some h1 ->
  getInstance c2 = Some f2 -> findCurrentHostFiber f2 = Some h2 ->
  inStrictMode h1 = true ->
  or_default (getComponentName (type f2)) "Component" =
    or_default (getComponentName (type f1)) "Component" ->
  or_default (getComponentName (type f1)) "Component"
    ∉ object_prototype_keys ->
  didWarnAboutFindNodeInStrictMode w
    !! or_default (getComponentName (type f1)) "Component" = None ->
  let w1 := after (findHostInstanceWithWarning c1 m1) w in
  events_of (findHostInstanceWithWarning c1 m1) w =
    [Warning (FindNodeInStrictMode (inStrictMode f1) m1
                (or_default (getComponentName (type f1)) "Component")
                (getStackByFiberInDevAndProd h1))] /\
  events_of (findHostInstanceWithWarning c2 m2) w1 = [] /\
  after (findHostInstanceWithWarning c2 m2) w1 = w1.
Proof.
  intros Hdev Hf1 Hh1 Hf2 Hh2 Hstrict Hname Hproto Hfresh. cbv zeta.
  set (name := or_default (getComponentName (type f1)) "Component") in *.
  assert (Hl : lookup_truthy (didWarnAboutFindNodeInStrictMode w) name
               = false).
  { unfold lookup_truthy. rewrite Hfresh. by apply bool_decide_eq_false. }
  assert (Hassign : assign_true (didWarnAboutFindNodeInStrictMode w) name =
                    <[name := true]> (didWarnAboutFindNodeInStrictMode w)).
  { unfold assign_true.
    destruct (String.eqb_spec name "__proto__") as [Heq|]; [|reflexivity].
    destruct Hproto. rewrite Heq. apply list_elem_of_In. simpl. tauto. }
  assert (Hw1 : after (findHostInstanceWithWarning c1 m1) w =
    set_trace
      (set_didWarnAboutFindNodeInStrictMode w
         (<[name := true]> (didWarnAboutFindNodeInStrictMode w)))
      (trace w ++
       [Warning (FindNodeInStrictMode (inStrictMode f1) m1 name
                   (getStackByFiberInDevAndProd h1))])).
  { unfold after.
    rewrite (findHostInstanceWithWarning_run c1 m1 f1 h1 w Hdev Hf1 Hh1).
    rewrite warnAboutFindNodeInStrictMode_run. simpl.
    fold name. by rewrite Hstrict, Hl, Hassign, Hdev. }
  split.
  { apply events_of_app. by rewrite Hw1. }
  assert (Hquiet : after (findHostInstanceWithWarning c2 m2)
                     (after (findHostInstanceWithWarning c1 m1) w) =
                   after (findHostInstanceWithWarning c1 m1) w).
  { unfold after at 1.
    rewrite (findHostInstanceWithWarning_run c2 m2 f2 h2 _ Hdev Hf2 Hh2).
    rewrite warnAboutFindNodeInStrictMode_run. simpl.
    rewrite Hname. fold name. rewrite Hw1. simpl.
    unfold lookup_truthy. rewrite lookup_insert_eq.
    by rewrite andb_false_r. }
  split; [|exact Hquiet].
  apply events_of_app. rewrite Hquiet. by rewrite app_nil_r.
Qed.


End HostLookups.

(** ** Instances of the further properties *)

Lemma scheduleRootUpdate_callback_null_or_function_witness :
  count_events is_callbackWarning
    (events_of (@scheduleRootUpdate (sample true) hostRootFiber
                  (VString "T1") 7%Z (VFunction 3)) world0) = 0 /\
  map callback
    (enqueued (events_of (@scheduleRootUpdate (sample true) hostRootFiber
                            (VString "T1") 7%Z (VFunction 3)) world0)) =
    [VFunction 3].
Proof.
  apply (@scheduleRootUpdate_callback_null_or_function (sample true)
           hostRootFiber (VString "T1") 7%Z (VFunction 3) world0).
  right. right. reflexivity.
Defined.

Lemma scheduleRootUpdate_nested_warning_witness :
  count_events is_nestedUpdateWarning
    (events_of (@scheduleRootUpdate (sample true) hostRootFiber
                  (VString "T1") 7%Z VUndefined) renderingWorld) = 1 /\
  In (Warning (NestedUpdate "App"))
    (events_of (@scheduleRootUpdate (sample true) hostRootFiber
                  (VString "T1") 7%Z VUndefined) renderingWorld) /\
  didWarnAboutNestedUpdates
    (after (@scheduleRootUpdate (sample true) hostRootFiber
              (VString "T1") 7%Z VUndefined) renderingWorld) = true.
Proof.
  destruct (@scheduleRootUpdate_nested_warning (sample true) hostRootFiber
              (VString "T1") 7%Z VUndefined renderingWorld) as [Hfires _].
  apply (Hfires appFiber); reflexivity.
Defined.

Lemma production_keeps_bookkeeping_witness :
  bookkeepingOf renderingWorld
    (@run_steps (sample false)
       [call_updateContainer (VString "T1") 0 Null (VNumber 1);
        call_findHostInstanceWithWarning strictApp "findDOMNode"]
       renderingWorld).
Proof.
  apply (@production_keeps_bookkeeping (sample false)). reflexivity.
Defined.

Lemma inherited_names_never_warned_witness :
  count_events (warns_strictMode_for "toString")
    (trace (@run_steps (sample true)
              [call_findHostInstanceWithWarning toStringApp "findDOMNode"]
              (initialWorld None None false 100%Z ∅))) = 0.
Proof.
  apply (@inherited_names_never_warned (sample true)).
  apply list_elem_of_In. simpl. tauto.
Defined.

Lemma updateContainer_failure_leaves_roots_witness :
  outcome (@updateContainerAtExpirationTime (sample true) (VString "T1") 0
             (Present unmountedApp) 7%Z VUndefined) world0 =
    Throw (TypeError "not a mounted component") /\
  roots (after (@updateContainerAtExpirationTime (sample true)
                  (VString "T1") 0 (Present unmountedApp) 7%Z VUndefined)
           world0) = roots world0 /\
  count_events is_updateEvent
    (events_of (@updateContainerAtExpirationTime (sample true)
                  (VString "T1") 0 (Present unmountedApp) 7%Z VUndefined)
       world0) = 0.
Proof.
  apply (@updateContainer_failure_leaves_roots (sample true) (VString "T1") 0
           (Present unmountedApp) 7%Z VUndefined world0 freshRoot
           (TypeError "not a mounted component")); reflexivity.
Defined.

Lemma updateContainer_touches_one_root_witness :
  roots (after (@updateContainerAtExpirationTime (sample true)
                  (VString "T1") 0 Null 7%Z VUndefined) world0) !! 1 =
  roots world0 !! 1.
Proof.
  destruct (@updateContainer_touches_one_root (sample true) (VString "T1") 0
              Null 7%Z VUndefined world0) as [Hother _].
  apply Hother. discriminate.
Defined.



Lemma updateContainer_debug_hook_witness :
  debugHooks
    (events_of (@updateContainerAtExpirationTime (sample true) VNull 0 Null
                  7%Z VUndefined) renderingWorld) = [onMountContainer].
Proof.
  apply (@updateContainer_debug_hook (sample true) VNull 0 Null 7%Z
           VUndefined renderingWorld freshRoot).
  reflexivity.
Defined.

Lemma getContextForSubtree_present_parent_witness :
  (exists err,
     outcome (@getContextForSubtree (sample true) (Present unmountedApp))
       world0 = Throw err) /\
  outcome (@getContextForSubtree (sample true) (Present mountedApp)) world0 =
    Return (VObject 1).
Proof.
  split.
  - destruct (@getContextForSubtree_present_parent (sample true)
                unmountedApp world0) as (_ & Hnone & _).
    apply Hnone. reflexivity.
  - destruct (@getContextForSubtree_present_parent (sample true)
                mountedApp world0) as (_ & _ & Hplain & _).
    apply (Hplain appFiber); [reflexivity|]. right. reflexivity.
Defined.

Lemma findHostInstanceWithWarning_dedupes_by_name_witness :
  events_of (@findHostInstanceWithWarning (sample true) strictApp
               "findDOMNode") world0 =
    [Warning (FindNodeInStrictMode true "findDOMNode" "App" "")] /\
  events_of (@findHostInstanceWithWarning (sample true) strictApp
               "findNodeHandle")
    (after (@findHostInstanceWithWarning (sample true) strictApp
              "findDOMNode") world0) = [] /\
  after (@findHostInstanceWithWarning (sample true) strictApp
           "findNodeHandle")
    (after (@findHostInstanceWithWarning (sample true) strictApp
              "findDOMNode") world0) =
  after (@findHostInstanceWithWarning (sample true) strictApp
           "findDOMNode") world0.
Proof.
  apply (@findHostInstanceWithWarning_dedupes_by_name (sample true)
           strictApp strictApp "findDOMNode" "findNodeHandle"
           (mkFiber 1%N (VString "App") (VObject 21) 2%N
              (Some strictDiv) None None) strictDiv
           (mkFiber 1%N (VString "App") (VObject 21) 2%N
              (Some strictDiv) None None) strictDiv world0);
    try reflexivity.
  intros Hin. apply list_elem_of_In in Hin. simpl in Hin.
  repeat (destruct Hin as [Hin | Hin]; [discriminate Hin|]).
  exact Hin.
Defined.


(** * The operations when a collaborator throws *)

Section FailingCollaborators.

Context `{Collaborators} `{Faults}.

Lemma bind_ext {A B} (m m' : M A) (k k' : A -> M B) (w : World) :
  m w = m' w -> (forall a w', k a w' = k' a w') ->
  bind m k w = bind m' k' w.
Proof.
  intros Hm Hk. unfold bind. rewrite Hm.
  destruct (m' w) as [[a|err] w']; [apply Hk | reflexivity].
Qed.


(** *** Runs that stop before the queue *)

Lemma prefixRun_ret {A} (a : A) (Q : A -> Prop) : Q a -> prefixRun (ret a) Q.
Proof.
  intros Ha w. exists []. by rewrite app_nil_r.
Qed.

Lemma prefixRun_throw {A} (err : Error) (Q : A -> Prop) :
  prefixRun (throw err) Q.
Proof.
  intros w. exists []. by rewrite app_nil_r.
Qed.

Lemma prefixRun_emit (ev : Event) :
  is_EnqueueUpdate ev = false -> is_ScheduleWork ev = false ->
  prefixRun (emit ev) (fun _ => True).
Proof.
  intros He Hs w. exists [ev]. split; [reflexivity|].
  by destruct ev.
Qed.

Lemma prefixRun_failing {A} (fault : option Error) (m : M A)
    (Q : A -> Prop) :
  prefixRun m Q -> prefixRun (failing fault m) Q.
Proof.
  intros Hm. destruct fault as [err|]; [apply prefixRun_throw | exact Hm].
Qed.

Lemma prefixRun_bind {A B} (m : M A) (k : A -> M B) (Q1 : A -> Prop)
    (Q2 : B -> Prop) :
  prefixRun m Q1 -> (forall a, Q1 a -> prefixRun (k a) Q2) ->
  prefixRun (bind m k) Q2.
Proof.
  intros Hm Hk w. destruct (Hm w) as (pre1 & Ht & He & Hs & Hq).
  unfold after, outcome, bind in *. revert Ht Hq.
  destruct (m w) as [[a|err] w1]; simpl; intros Ht Hq.
  - destruct (Hk a Hq w1) as (pre2 & Ht2 & He2 & Hs2 & Hq2).
    unfold after, outcome in Ht2, Hq2.
    exists (pre1 ++ pre2). rewrite Ht2, Ht, enqueuedOn_app, scheduled_app.
    rewrite He, He2, Hs, Hs2. by rewrite app_assoc.
  - by exists pre1.
Qed.

Lemma prefixRun_warningWithoutStack (condition : bool) (k : WarningKind) :
  prefixRun (Fallible.warningWithoutStack condition k) (fun _ => True).
Proof.
  unfold Fallible.warningWithoutStack.
  destruct (DEV && negb condition); [|by apply prefixRun_ret].
  by apply prefixRun_failing, prefixRun_emit.
Qed.

Lemma prefixRun_warnAboutNestedUpdates :
  prefixRun Fallible.warnAboutNestedUpdates (fun _ => True).
Proof.
  intros w.
  assert (Ht : exists pre,
    trace (after Fallible.warnAboutNestedUpdates w) = trace w ++ pre /\
    enqueuedOn pre = [] /\ scheduled pre = []).
  { unfold after, Fallible.warnAboutNestedUpdates, bind, get_world,
      put_world, Fallible.warningWithoutStack, failing, emit, throw, ret.
    destruct (ReactCurrentFiberPhase w) as [ph|]; simpl;
      [|exists []; by rewrite app_nil_r].
    destruct (ReactCurrentFiberCurrent w) as [cur|]; simpl;
      [|exists []; by rewrite app_nil_r].
    destruct (String.eqb ph "render" && negb (didWarnAboutNestedUpdates w));
      simpl; [|exists []; by rewrite app_nil_r].
    destruct DEV; simpl; [|exists []; by rewrite app_nil_r].
    destruct (warningWithoutStack_throws _); simpl.
    - exists []. by rewrite app_nil_r.
    - eexists [_]. by split. }
  destruct Ht as (pre & Ht & He & Hs). exists pre.
  repeat split; try done.
  by destruct (outcome Fallible.warnAboutNestedUpdates w).
Qed.

(** The calls of [scheduleRootUpdate] up to the update record being
    ready: when they return, the record is the one described by
    [rootUpdate]. *)
Lemma prefixRun_callback_stage (el : JsVal) (e : ExpirationTime)
    (cb : JsVal) :
  let update0 :=
    set_payload
      {| expirationTime := e; payload := PayloadNull; callback := VNull |}
      (PayloadObject [("element", el)]) in
  let callback0 := if strict_equals cb VUndefined then VNull else cb in
  prefixRun
    (if negb (strict_equals callback0 VNull) then
       Fallible.warningWithoutStack (typeof_function callback0)
         (CallbackNotFunction callback0);;
       ret (set_callback update0 callback0)
     else ret update0)
    (fun u => u = rootUpdate el e cb).
Proof.
  cbv zeta. unfold rootUpdate, normalizedCallback.
  set (callback0 := if strict_equals cb VUndefined then VNull else cb).
  destruct (strict_equals callback0 VNull) eqn:Hnull; simpl.
  - apply prefixRun_ret. apply bool_decide_eq_true in Hnull.
    by rewrite Hnull.
  - eapply prefixRun_bind; [apply prefixRun_warningWithoutStack|].
    intros _ _. by apply prefixRun_ret.
Qed.

(** *** Runs that end with the queue *)

Lemma queueRun_tail (cur : Fiber) (u : Update) (e : ExpirationTime) :
  queueRun
    (Fallible.flushPassiveEffects;;
     Fallible.enqueueUpdate cur u;;
     Fallible.scheduleWork cur e;;
     ret e) cur u e.
Proof.
  intros w. exists [].
  unfold after, outcome, bind, Fallible.flushPassiveEffects,
    Fallible.enqueueUpdate, Fallible.scheduleWork, failing, emit, throw, ret,
    queueEvents.
  destruct flushPassiveEffects_throws as [err|]; simpl.
  { exists 0. simpl. rewrite app_nil_r. repeat split; try lia.
    right. split; [eauto | lia]. }
  destruct (enqueueUpdate_throws cur u) as [err|]; simpl.
  { exists 1. simpl. repeat split; try lia.
    right. split; [eauto | lia]. }
  destruct (scheduleWork_throws cur e) as [err|]; simpl.
  { exists 2. simpl. rewrite <- app_assoc. repeat split; try lia.
    right. split; [eauto | lia]. }
  exists 3. simpl. rewrite <- !app_assoc. repeat split; try lia.
  by left.
Qed.

Lemma queueRun_bind {A} (m : M A) (k : A -> M ExpirationTime)
    (Q : A -> Prop) (cur : Fiber) (u : Update) (e : ExpirationTime) :
  prefixRun m Q -> (forall a, Q a -> queueRun (k a) cur u e) ->
  queueRun (bind m k) cur u e.
Proof.
  intros Hm Hk w. destruct (Hm w) as (pre1 & Ht & He & Hs & Hq).
  unfold after, outcome, bind in *. revert Ht Hq.
  destruct (m w) as [[a|err] w1]; simpl; intros Ht Hq.
  - destruct (Hk a Hq w1) as (pre2 & n & Ht2 & He2 & Hs2 & Hn & Hout).
    unfold after, outcome in Ht2, Hout.
    exists (pre1 ++ pre2), n.
    rewrite Ht2, Ht, enqueuedOn_app, scheduled_app, He, He2, Hs, Hs2.
    rewrite <- !app_assoc. by repeat split.
  - exists pre1, 0. unfold queueEvents. simpl. rewrite app_nil_r.
    repeat split; try done; try lia.
    right. split; [eauto | lia].
Qed.

Lemma scheduleRootUpdate_queueRun (cur : Fiber) (el : JsVal)
    (e : ExpirationTime) (cb : JsVal) :
  queueRun (Fallible.scheduleRootUpdate cur el e cb) cur
    (rootUpdate el e cb) e.
Proof.
  unfold Fallible.scheduleRootUpdate.
  eapply queueRun_bind; [by apply prefixRun_emit|]. intros _ _.
  eapply queueRun_bind.
  { destruct DEV;
      [apply prefixRun_warnAboutNestedUpdates | by apply prefixRun_ret]. }
  intros _ _.
  eapply (queueRun_bind _ _
    (fun upd => upd = {| expirationTime := e; payload := PayloadNull;
                         callback := VNull |})).
  { unfold createUpdate.
    eapply prefixRun_bind; [by apply prefixRun_emit|].
    intros _ _. by apply prefixRun_ret. }
  intros upd ->. cbv zeta.
  eapply queueRun_bind; [apply prefixRun_callback_stage|].
  intros u' ->. apply queueRun_tail.
Qed.

(** What a run of [scheduleRootUpdate] leaves in the trace, whatever
    throws. *)
Lemma scheduleRootUpdate_fallible_events (cur : Fiber) (el : JsVal)
    (e : ExpirationTime) (cb : JsVal) (w : World) :
  exists pre reached,
    events_of (Fallible.scheduleRootUpdate cur el e cb) w =
      pre ++ queueEvents cur (rootUpdate el e cb) e reached /\
    enqueuedOn pre = [] /\ scheduled pre = [] /\ reached <= 3 /\
    (outcome (Fallible.scheduleRootUpdate cur el e cb) w = Return e /\
     reached = 3 \/
     (exists err,
        outcome (Fallible.scheduleRootUpdate cur el e cb) w = Throw err) /\
     reached < 3).
Proof.
  destruct (scheduleRootUpdate_queueRun cur el e cb w)
    as (pre & n & Ht & He & Hs & Hn & Hout).
  exists pre, n. split; [by apply events_of_app|]. done.
Qed.

(** *** Runs in which nothing throws *)

Lemma warningWithoutStack_clean (condition : bool) (k : WarningKind)
    (w : World) :
  warningWithoutStack_throws k = None ->
  Fallible.warningWithoutStack condition k w =
  warningWithoutStack condition k w.
Proof.
  intros Hk. unfold Fallible.warningWithoutStack, warningWithoutStack.
  by rewrite Hk.
Qed.

Lemma scheduleRootUpdate_clean (cur : Fiber) (el : JsVal)
    (e : ExpirationTime) (cb : JsVal) (w : World) :
  (forall n, warningWithoutStack_throws (NestedUpdate n) = None) ->
  warningWithoutStack_throws (CallbackNotFunction cb) = None ->
  flushPassiveEffects_throws = None ->
  (forall u, enqueueUpdate_throws cur u = None) ->
  scheduleWork_throws cur e = None ->
  Fallible.scheduleRootUpdate cur el e cb w =
  scheduleRootUpdate cur el e cb w.
Proof.
  intros Hnested Hcb Hflush Henq Hsched.
  unfold Fallible.scheduleRootUpdate, scheduleRootUpdate.
  apply bind_ext; [reflexivity|]. intros _ w1.
  apply bind_ext.
  { destruct DEV; [|reflexivity].
    unfold Fallible.warnAboutNestedUpdates, warnAboutNestedUpdates.
    apply bind_ext; [reflexivity|]. intros w0 w0'.
    destruct (ReactCurrentFiberPhase w0); [|reflexivity].
    destruct (ReactCurrentFiberCurrent w0); [|reflexivity].
    destruct (String.eqb _ _ && _); [|reflexivity].
    apply bind_ext; [reflexivity|]. intros _ w0''.
    by apply warningWithoutStack_clean. }
  intros _ w2. apply bind_ext; [reflexivity|]. intros upd w3. cbv zeta.
  apply bind_ext.
  { destruct (strict_equals cb VUndefined); [reflexivity|].
    destruct (negb (strict_equals cb VNull)); [|reflexivity].
    apply bind_ext; [|reflexivity]. by apply warningWithoutStack_clean. }
  intros u' w4.
  apply bind_ext.
  { unfold Fallible.flushPassiveEffects. by rewrite Hflush. }
  intros _ w5. apply bind_ext.
  { unfold Fallible.enqueueUpdate. by rewrite Henq. }
  intros _ w6. apply bind_ext; [|reflexivity].
  unfold Fallible.scheduleWork. by rewrite Hsched.
Qed.

End FailingCollaborators.

Section FailingCollaborators_properties.

Context `{Collaborators} `{Faults}.

Lemma queueEvents_cases (cur : Fiber) (u : Update) (e : ExpirationTime)
    (reached : nat) :
  reached <= 3 ->
  (reached < 3 /\ scheduled (queueEvents cur u e reached) = [] /\
   (enqueuedOn (queueEvents cur u e reached) = [] \/
    enqueuedOn (queueEvents cur u e reached) = [(cur, u)])) \/
  (reached = 3 /\
   queueEvents cur u e reached =
     [FlushPassiveEffects; EnqueueUpdate cur u; ScheduleWork cur e]).
Proof.
  intros Hn. unfold queueEvents.
  destruct reached as [|[|[|[|n]]]]; simpl; [| | | |lia].
  - left. split; [lia|]. split; [reflexivity | by left].
  - left. split; [lia|]. split; [reflexivity | by left].
  - left. split; [lia|]. split; [reflexivity | by right].
  - right. by split.
Qed.


(** X1.  [scheduleRootUpdate] returns, with the expiration time it was
    given, exactly when its request for work went through; work is
    requested at most once, for the fiber and expiration time it was
    given, last of all, and never unless the one update, stamped with
    that expiration time, was enqueued on that fiber before.  When no
    collaborator throws, the request goes through. *)
Theorem scheduleRootUpdate_schedules_after_enqueue (cur : Fiber)
    (el : JsVal) (e : ExpirationTime) (cb : JsVal) (w : World) :
  let run := Fallible.scheduleRootUpdate cur el e cb in
  let evs := events_of run w in
  (outcome run w = Return e <-> scheduled evs = [(cur, e)]) /\
  (forall r, outcome run w = Return r -> r = e) /\
  (scheduled evs = [] \/ scheduled evs = [(cur, e)]) /\
  (scheduled evs = [(cur, e)] ->
   last evs = Some (ScheduleWork cur e) /\
   exists u, enqueuedOn evs = [(cur, u)] /\ expirationTime u = e) /\
  ((forall n, warningWithoutStack_throws (NestedUpdate n) = None) ->
   warningWithoutStack_throws (CallbackNotFunction cb) = None ->
   flushPassiveEffects_throws = None ->
   (forall u, enqueueUpdate_throws cur u = None) ->
   scheduleWork_throws cur e = None ->
   outcome run w = Return e).
Proof.
  cbv zeta.
  destruct (scheduleRootUpdate_fallible_events cur el e cb w)
    as (pre & n & Hevs & He & Hs & Hn & Hout).
  rewrite Hevs, scheduled_app, enqueuedOn_app, He, Hs. simpl.
  destruct (queueEvents_cases cur (rootUpdate el e cb) e n Hn)
    as [(Hlt & Hsched & _) | (-> & Hq)].
  - destruct Hout as [[_ ->] | [[err Herr] _]]; [lia|].
    rewrite Hsched, Herr.
    split; [split; discriminate|]. split; [discriminate|].
    split; [by left|]. split; [discriminate|].
    intros Hnested Hcb Hflush Henq Hsch.
    unfold outcome in Herr.
    rewrite (scheduleRootUpdate_clean cur el e cb w
               Hnested Hcb Hflush Henq Hsch) in Herr.
    by rewrite scheduleRootUpdate_run in Herr.
  - destruct Hout as [[Hret _] | [_ Hlt]]; [|lia].
    rewrite Hq, Hret. simpl.
    split; [done|]. split; [by intros r [= <-]|]. split; [by right|].
    split; [|done]. intros _. split.
    + rewrite last_app. reflexivity.
    + by eexists.
Qed.

Lemma findHostInstance_fallible_run (component : Component) (w : World) :
  Fallible.findHostInstance component w =
  (match getInstance component with
   | None =>
       Throw (InvariantViolation
                (if typeof_function (render component)
                 then UnmountedComponent
                 else NotAReactComponent (keys component)))
   | Some fiber =>
       match findCurrentHostFiber_throws fiber with
       | Some err => Throw err
       | None =>
           match findCurrentHostFiber fiber with
           | None => Return VNull
           | Some hostFiber => Return (stateNode hostFiber)
           end
       end
   end, w).
Proof.
  unfold Fallible.findHostInstance, Fallible.findCurrentHostFiber, failing,
    bind, ret, throw, invariant.
  destruct (getInstance component) as [fiber|]; simpl.
  - destruct (findCurrentHostFiber_throws fiber); [reflexivity|].
    by destruct (findCurrentHostFiber fiber).
  - by destruct (typeof_function (render component)).
Qed.

Lemma findHostInstanceWithNoPortals_fallible_run (fiber : Fiber)
    (w : World) :
  Fallible.findHostInstanceWithNoPortals fiber w =
  (match findCurrentHostFiberWithNoPortals_throws fiber with
   | Some err => Throw err
   | None =>
       match findCurrentHostFiberWithNoPortals fiber with
       | None => Return VNull
       | Some hostFiber => Return (stateNode hostFiber)
       end
   end, w).
Proof.
  unfold Fallible.findHostInstanceWithNoPortals,
    Fallible.findCurrentHostFiberWithNoPortals, failing, bind, ret, throw.
  destruct (findCurrentHostFiberWithNoPortals_throws fiber); [reflexivity|].
  by destruct (findCurrentHostFiberWithNoPortals fiber).
Qed.

(** C4, as the code has it.  [findHostInstance] raises an invariant
    violation of its own whenever the handle has no work node behind it:
    the unmounted-component one when the handle's [render] is a function,
    otherwise the one that lists the handle's keys, two different
    messages.  When the handle has a work node, the call fails exactly
    when [findCurrentHostFiber] fails, with that helper's error; when the
    helper finds no host fiber it returns null, and when it finds one,
    that fiber's [stateNode].  It changes nothing. *)
Theorem findHostInstance_own_check_then_helper (component : Component)
    (w : World) :
  after (Fallible.findHostInstance component) w = w /\
  (getInstance component = None ->
   typeof_function (render component) = true ->
   outcome (Fallible.findHostInstance component) w =
     Throw (InvariantViolation UnmountedComponent)) /\
  (getInstance component = None ->
   typeof_function (render component) = false ->
   outcome (Fallible.findHostInstance component) w =
     Throw (InvariantViolation (NotAReactComponent (keys component)))) /\
  invariant_format UnmountedComponent <>
    invariant_format (NotAReactComponent (keys component)) /\
  (forall fiber err, getInstance component = Some fiber ->
   (outcome (Fallible.findHostInstance component) w = Throw err <->
    findCurrentHostFiber_throws fiber = Some err)) /\
  (forall fiber, getInstance component = Some fiber ->
   findCurrentHostFiber_throws fiber = None ->
   findCurrentHostFiber fiber = None ->
   outcome (Fallible.findHostInstance component) w = Return VNull) /\
  (forall fiber hostFiber, getInstance component = Some fiber ->
   findCurrentHostFiber_throws fiber = None ->
   findCurrentHostFiber fiber = Some hostFiber ->
   outcome (Fallible.findHostInstance component) w =
     Return (stateNode hostFiber)).
Proof.
  unfold outcome, after. rewrite findHostInstance_fallible_run. simpl.
  split; [reflexivity|].
  split; [by intros -> ->|]. split; [by intros -> ->|].
  split; [discriminate|]. split; [|split].
  - intros fiber err ->.
    destruct (findCurrentHostFiber_throws fiber) as [err'|].
    + split; by intros [= ->].
    + split; [|discriminate].
      by destruct (findCurrentHostFiber fiber).
  - by intros fiber -> -> ->.
  - by intros fiber hostFiber -> -> ->.
Qed.

(** C10, as the code has it.  [findHostInstanceWithNoPortals] takes a
    fiber, not a handle, and has no check of its own: it fails exactly
    when [findCurrentHostFiberWithNoPortals] fails, with that helper's
    error, and otherwise returns null when the helper finds no host fiber
    and the found fiber's [stateNode] when it finds one.  It changes
    nothing, and on the fiber of a handle it has the outcome of
    [findHostInstance] whenever the two searches agree on that fiber. *)
Theorem findHostInstanceWithNoPortals_forwards_helper (fiber : Fiber)
    (w : World) :
  after (Fallible.findHostInstanceWithNoPortals fiber) w = w /\
  (forall err,
     outcome (Fallible.findHostInstanceWithNoPortals fiber) w = Throw err <->
     findCurrentHostFiberWithNoPortals_throws fiber = Some err) /\
  (findCurrentHostFiberWithNoPortals_throws fiber = None ->
   findCurrentHostFiberWithNoPortals fiber = None ->
   outcome (Fallible.findHostInstanceWithNoPortals fiber) w = Return VNull) /\
  (forall hostFiber,
     findCurrentHostFiberWithNoPortals_throws fiber = None ->
     findCurrentHostFiberWithNoPortals fiber = Some hostFiber ->
     outcome (Fallible.findHostInstanceWithNoPortals fiber) w =
       Return (stateNode hostFiber)) /\
  (forall component, getInstance component = Some fiber ->
   findCurrentHostFiberWithNoPortals_throws fiber =
     findCurrentHostFiber_throws fiber ->
   findCurrentHostFiberWithNoPortals fiber = findCurrentHostFiber fiber ->
   outcome (Fallible.findHostInstanceWithNoPortals fiber) w =
   outcome (Fallible.findHostInstance component) w).
Proof.
  unfold outcome, after.
  rewrite findHostInstanceWithNoPortals_fallible_run. simpl.
  split; [reflexivity|]. split; [|split; [|split]].
  - intros err.
    destruct (findCurrentHostFiberWithNoPortals_throws fiber) as [err'|].
    + split; by intros [= ->].
    + split; [|discriminate].
      by destruct (findCurrentHostFiberWithNoPortals fiber).
  - by intros -> ->.
  - by intros hostFiber -> ->.
  - intros component Hfiber Hthrows Hfound.
    rewrite findHostInstance_fallible_run, Hfiber, Hthrows, Hfound.
    reflexivity.
Qed.

End FailingCollaborators_properties.

(** With no fault the operations are those of the first part. *)
Lemma findHostInstance_noFaults `{Collaborators} (component : Component)
    (w : World) :
  @Fallible.findHostInstance _ noFaults component w =
  findHostInstance component w.
Proof.
  by rewrite (@findHostInstance_fallible_run _ noFaults),
    findHostInstance_run.
Qed.

Lemma findHostInstanceWithNoPortals_noFaults `{Collaborators}
    (fiber : Fiber) (w : World) :
  @Fallible.findHostInstanceWithNoPortals _ noFaults fiber w =
  findHostInstanceWithNoPortals fiber w.
Proof.
  rewrite (@findHostInstanceWithNoPortals_fallible_run _ noFaults).
  unfold findHostInstanceWithNoPortals, ret. simpl.
  by destruct (findCurrentHostFiberWithNoPortals fiber).
Qed.

Lemma scheduleRootUpdate_noFaults `{Collaborators} (cur : Fiber)
    (el : JsVal) (e : ExpirationTime) (cb : JsVal) (w : World) :
  @Fallible.scheduleRootUpdate _ noFaults cur el e cb w =
  scheduleRootUpdate cur el e cb w.
Proof. by apply (@scheduleRootUpdate_clean _ noFaults). Qed.

(** The warning helper throwing on its argument: the call fails before
    anything is flushed, enqueued or scheduled. *)
Example warning_helper_throws :
  outcome (@Fallible.scheduleRootUpdate (sample true) sampleFaults
             hostRootFiber (VString "T1") 7%Z (VObject 66)) world0 =
    Throw (TypeError "Cannot convert object to primitive value") /\
  events_of (@Fallible.scheduleRootUpdate (sample true) sampleFaults
               hostRootFiber (VString "T1") 7%Z (VObject 66)) world0 =
    [ConsoleLog "scheduleRootUpdate"; CreateUpdate 7%Z].
Proof. split; reflexivity. Qed.

(** C4, as stated, fails: this handle has a work node behind it, and the
    lookup raises an invariant violation all the same, the one of the
    reflection it calls. *)
Lemma findHostInstance_throws_for_work_node :
  getInstance detachedApp = Some detachedFiber /\
  outcome (@Fallible.findHostInstance (sample true) sampleFaults detachedApp)
    world0 = Throw (InvariantViolation UnmountedComponent).
Proof. split; reflexivity. Qed.

(** C10, as stated, fails: on this fiber the lookup does not return; it
    raises the unmounted-component invariant of the search it calls. *)
Lemma findHostInstanceWithNoPortals_throws :
  outcome (@Fallible.findHostInstanceWithNoPortals (sample true) sampleFaults
             detachedFiber) world0 =
  Throw (InvariantViolation UnmountedComponent).
Proof. reflexivity. Qed.


Lemma scheduleRootUpdate_schedules_after_enqueue_witness :
  outcome (@Fallible.scheduleRootUpdate (sample true) sampleFaults
             hostRootFiber (VString "T1") 7%Z VUndefined) world0 =
    Return 7%Z /\
  last (events_of (@Fallible.scheduleRootUpdate (sample true) sampleFaults
                     hostRootFiber (VString "T1") 7%Z VUndefined) world0) =
    Some (ScheduleWork hostRootFiber 7%Z) /\
  exists u,
    enqueuedOn (events_of
      (@Fallible.scheduleRootUpdate (sample true) sampleFaults
         hostRootFiber (VString "T1") 7%Z VUndefined) world0) =
      [(hostRootFiber, u)] /\
    expirationTime u = 7%Z.
Proof.
  destruct (@scheduleRootUpdate_schedules_after_enqueue (sample true)
              sampleFaults hostRootFiber (VString "T1") 7%Z VUndefined
              world0) as (_ & _ & _ & Hsched & Hclean).
  split; [apply Hclean; intros; reflexivity|].
  apply Hsched. reflexivity.
Defined.

Lemma findHostInstance_own_check_then_helper_witness :
  outcome (@Fallible.findHostInstance (sample true) sampleFaults
             unmountedApp) world0 =
    Throw (InvariantViolation UnmountedComponent) /\
  outcome (@Fallible.findHostInstance (sample true) sampleFaults
             foreignObject) world0 =
    Throw (InvariantViolation (NotAReactComponent ["a"; "b"])) /\
  outcome (@Fallible.findHostInstance (sample true) sampleFaults
             detachedApp) world0 =
    Throw (InvariantViolation UnmountedComponent) /\
  outcome (@Fallible.findHostInstance (sample true) sampleFaults
             mountedApp) world0 = Return (VObject 10).
Proof.
  split; [|split; [|split]].
  - destruct (@findHostInstance_own_check_then_helper (sample true)
                sampleFaults unmountedApp world0) as (_ & Hown & _).
    apply Hown; reflexivity.
  - destruct (@findHostInstance_own_check_then_helper (sample true)
                sampleFaults foreignObject world0) as (_ & _ & Hown & _).
    apply Hown; reflexivity.
  - destruct (@findHostInstance_own_check_then_helper (sample true)
                sampleFaults detachedApp world0)
      as (_ & _ & _ & _ & Hhelper & _).
    apply (Hhelper detachedFiber); reflexivity.
  - destruct (@findHostInstance_own_check_then_helper (sample true)
                sampleFaults mountedApp world0)
      as (_ & _ & _ & _ & _ & _ & Hfound).
    apply (Hfound appFiber divFiber); reflexivity.
Defined.

Lemma findHostInstanceWithNoPortals_forwards_helper_witness :
  outcome (@Fallible.findHostInstanceWithNoPortals (sample true) sampleFaults
             appFiber) world0 = Return (VObject 10) /\
  outcome (@Fallible.findHostInstanceWithNoPortals (sample true) sampleFaults
             appFiber) world0 =
  outcome (@Fallible.findHostInstance (sample true) sampleFaults mountedApp)
    world0.
Proof.
  destruct (@findHostInstanceWithNoPortals_forwards_helper (sample true)
              sampleFaults appFiber world0) as (_ & _ & _ & Hfound & Hsame).
  split.
  - apply (Hfound divFiber); reflexivity.
  - apply (Hsame mountedApp); reflexivity.
Defined.
